(** * darkstat: packet decoding (decode.c)

    A shallow embedding of [decode.c]: the link-type table with [getlinkhdr]
    and [getsnaplen], the six link-layer decoders, the IPv4/IPv6 demuxer and
    the TCP/UDP demuxer, followed by the properties of the decoding engine.

    Conventions of the embedding.
    - A captured frame is the [pcap_pkthdr] (seconds of the timestamp and the
      captured length [caplen], an unsigned 32-bit value held in [Z]) together
      with [pdata], the list of the bytes that may be read.  [pdata + n] is
      [skipn n pdata].
    - Every read of the buffer goes through [byte_at] / [bytes_at]; a read
      outside the list is a fault of the run (the C program has undefined
      behaviour there) and ends it: the run then has no result.
    - The calls to the collaborators ([verbosef] of err.h, [acct_for] of
      acct.h) are recorded, in order, in the trace of the run.  The trace
      also records each entry into [decode_ip].
    - Each decoder returns the final value of its local [struct pktsummary sm],
      so that what was written into the summary can be stated. *)

From Stdlib Require Import ZArith List String Bool Lia.
From Stdlib Require Import Strings.Byte.
Import ListNotations.
Local Open Scope string_scope.
Local Open Scope list_scope.
Local Open Scope Z_scope.

Set Implicit Arguments.

(** ** Bytes and integers *)

(** The value of a [u_char]. *)
Definition u8 (b : byte) : Z := Z.of_N (Byte.to_N b).

(** [ntohs] of a 16-bit field whose two bytes are [hi], [lo] in wire order. *)
Definition ntohs (hi lo : byte) : Z := Z.lor (Z.shiftl (u8 hi) 8) (u8 lo).

(** A 32-bit field read in network byte order. *)
Definition be32 (b0 b1 b2 b3 : byte) : Z :=
  Z.lor (Z.shiftl (u8 b0) 24)
        (Z.lor (Z.shiftl (u8 b1) 16) (Z.lor (Z.shiftl (u8 b2) 8) (u8 b3))).

(** Subtraction of [uint32_t] values. *)
Definition sub32 (a b : Z) : Z := (a - b) mod 2 ^ 32.

(** The value a [uint16_t] holds once [v] is stored into it. *)
Definition to_u16 (v : Z) : Z := v mod 2 ^ 16.

(** ** The packet summary *)

(** Modelled from the spec: [struct addr] is declared in a header that is not
    among the sources.  The spec (section 3) describes it as a union over a
    4-byte IPv4 and a 16-byte IPv6 address tagged by an explicit family
    field; [ip] holds the bytes of the member that was written, in wire
    order, and is empty in a zeroed summary. *)
Inductive addr_family := AF_unset | IPv4 | IPv6.

Record addr := mk_addr { family : addr_family; ip : list byte }.

Definition addr_zero : addr := mk_addr AF_unset [].

(** Modelled from the spec: [struct pktsummary] is declared in decode.h, which
    is not among the sources.  The fields are the ones decode.c assigns; the
    spec (section 3) gives the ports as 16-bit values and the MAC addresses
    as 6 bytes.  [len] is a [uint16_t] as well: [decode_ip] assigns it the
    16-bit value of [ntohs], and the sum that [decode_ipv6] assigns is
    reduced to 16 bits by the store ([to_u16]). *)
Record pktsummary := mk_pktsummary {
  time : Z;
  src_mac : list byte;
  dst_mac : list byte;
  len : Z;
  proto : Z;
  src : addr;
  dst : addr;
  src_port : Z;
  dst_port : Z;
  tcp_flags : Z
}.

Definition mac_zero : list byte := [x00; x00; x00; x00; x00; x00].

(** [memset(&sm, 0, sizeof(sm))]. *)
Definition pktsummary_zero : pktsummary :=
  mk_pktsummary 0 mac_zero mac_zero 0 0 addr_zero addr_zero 0 0 0.

Definition set_time (sm : pktsummary) (v : Z) : pktsummary :=
  mk_pktsummary v (src_mac sm) (dst_mac sm) (len sm) (proto sm) (src sm)
                (dst sm) (src_port sm) (dst_port sm) (tcp_flags sm).
Definition set_src_mac (sm : pktsummary) (v : list byte) : pktsummary :=
  mk_pktsummary (time sm) v (dst_mac sm) (len sm) (proto sm) (src sm)
                (dst sm) (src_port sm) (dst_port sm) (tcp_flags sm).
Definition set_dst_mac (sm : pktsummary) (v : list byte) : pktsummary :=
  mk_pktsummary (time sm) (src_mac sm) v (len sm) (proto sm) (src sm)
                (dst sm) (src_port sm) (dst_port sm) (tcp_flags sm).
Definition set_len (sm : pktsummary) (v : Z) : pktsummary :=
  mk_pktsummary (time sm) (src_mac sm) (dst_mac sm) v (proto sm) (src sm)
                (dst sm) (src_port sm) (dst_port sm) (tcp_flags sm).
Definition set_proto (sm : pktsummary) (v : Z) : pktsummary :=
  mk_pktsummary (time sm) (src_mac sm) (dst_mac sm) (len sm) v (src sm)
                (dst sm) (src_port sm) (dst_port sm) (tcp_flags sm).
Definition set_src (sm : pktsummary) (v : addr) : pktsummary :=
  mk_pktsummary (time sm) (src_mac sm) (dst_mac sm) (len sm) (proto sm) v
                (dst sm) (src_port sm) (dst_port sm) (tcp_flags sm).
Definition set_dst (sm : pktsummary) (v : addr) : pktsummary :=
  mk_pktsummary (time sm) (src_mac sm) (dst_mac sm) (len sm) (proto sm)
                (src sm) v (src_port sm) (dst_port sm) (tcp_flags sm).
Definition set_src_port (sm : pktsummary) (v : Z) : pktsummary :=
  mk_pktsummary (time sm) (src_mac sm) (dst_mac sm) (len sm) (proto sm)
                (src sm) (dst sm) v (dst_port sm) (tcp_flags sm).
Definition set_dst_port (sm : pktsummary) (v : Z) : pktsummary :=
  mk_pktsummary (time sm) (src_mac sm) (dst_mac sm) (len sm) (proto sm)
                (src sm) (dst sm) (src_port sm) v (tcp_flags sm).
Definition set_tcp_flags (sm : pktsummary) (v : Z) : pktsummary :=
  mk_pktsummary (time sm) (src_mac sm) (dst_mac sm) (len sm) (proto sm)
                (src sm) (dst sm) (src_port sm) (dst_port sm) v.

(** ** Runs: trace of collaborator calls, and faults *)

Inductive event :=
| EvVerbose (fmt : string) (args : list Z)   (* verbosef(fmt, args...) *)
| EvAcct (sm : pktsummary)                   (* acct_for(&sm) *)
| EvDecodeIp (n : Z).                        (* decode_ip entered, len = n *)

(** A run yields the events it produced and either a value or, when a read
    fell outside the buffer, nothing. *)
Definition M (A : Type) : Type := (list event * option A)%type.

Definition ret {A} (a : A) : M A := ([], Some a).

Definition bind {A B} (m : M A) (f : A -> M B) : M B :=
  match snd m with
  | None => (fst m, None)
  | Some a => (fst m ++ fst (f a), snd (f a))
  end.

Notation "x <- m ;; k" := (bind m (fun x => k))
  (at level 61, m at next level, right associativity).
Notation "m ;;; k" := (bind m (fun _ => k))
  (at level 61, right associativity).

Definition emit (e : event) : M unit := ([e], Some tt).

Definition verbosef (fmt : string) (args : list Z) : M unit :=
  emit (EvVerbose fmt args).

Definition acct_for (sm : pktsummary) : M unit := emit (EvAcct sm).

(** [pdata[i]]. *)
Definition byte_at (pdata : list byte) (i : nat) : M byte :=
  ([], nth_error pdata i).

(** The [n] bytes at offset [i], as [memcpy] or a multi-byte field read
    takes them. *)
Definition bytes_at (pdata : list byte) (i n : nat) : M (list byte) :=
  if (i + n <=? List.length pdata)%nat
  then ret (firstn n (skipn i pdata))
  else ([], None).

(** [ntohs] of the 16-bit field at offset [i]. *)
Definition ntohs_at (pdata : list byte) (i : nat) : M Z :=
  hi <- byte_at pdata i ;;
  lo <- byte_at pdata (S i) ;;
  ret (ntohs hi lo).

(** ** Constants *)

(** From the system headers: <net/ethernet.h> (decode.c itself defines
    [ETHER_HDR_LEN] as 14 and [ETHERTYPE_PPPOE] as 0x8864 where the system
    does not), <netinet/in.h>, <netinet/tcp.h>, <sys/socket.h>. *)
Definition ETHER_HDR_LEN : Z := 14.
Definition ETHERTYPE_IP : Z := 0x0800.
Definition ETHERTYPE_ARP : Z := 0x0806.
Definition ETHERTYPE_IPV6 : Z := 0x86dd.
Definition ETHERTYPE_PPPOE : Z := 0x8864.

Definition IPPROTO_ICMP : Z := 1.
Definition IPPROTO_TCP : Z := 6.
Definition IPPROTO_UDP : Z := 17.
Definition IPPROTO_ESP : Z := 50.
Definition IPPROTO_AH : Z := 51.
Definition IPPROTO_ICMPV6 : Z := 58.
Definition IPPROTO_OSPF : Z := 89.

Definition TH_FIN : Z := 0x01.
Definition TH_SYN : Z := 0x02.
Definition TH_RST : Z := 0x04.
Definition TH_PUSH : Z := 0x08.
Definition TH_ACK : Z := 0x10.
Definition TH_URG : Z := 0x20.

Definition AF_INET : Z := 2.

(** [sizeof(struct ip)], [sizeof(struct ip6_hdr)], [sizeof(struct tcphdr)]
    and [sizeof(struct udphdr)] of <netinet/*.h>; the spec (section 8) gives
    the same 40, 20 and 8 for the IPv6, TCP and UDP headers. *)
Definition IP_HDR_LEN : Z := 20.
Definition IPV6_HDR_LEN : Z := 40.
Definition TCP_HDR_LEN : Z := 20.
Definition UDP_HDR_LEN : Z := 8.

(** Modelled from the spec: the [*_HDR_LEN] macros of the link layers are
    defined in decode.h, which is not among the sources.  The values are the
    sizes of the headers as the spec (section 4.2) and the code lay them out:
    a 4-byte address family for the null/loopback link; a PPP header whose
    last field is the protocol id at offsets 2-3; a PPPoE header of
    1+1+2+2 bytes followed by the 2-byte PPP protocol that the code reads at
    offsets 6-7; the 2+2+2+8+2 bytes of [struct sll_header]; no header for
    raw IP.  The spec does not describe FDDI, for which the table has no
    decoder: 21 is the size of an FDDI header with its LLC/SNAP part
    (1 + 6 + 6 + 8). *)
Definition NULL_HDR_LEN : Z := 4.
Definition PPP_HDR_LEN : Z := 4.
Definition PPPOE_HDR_LEN : Z := 8.
Definition SLL_HDR_LEN : Z := 16.
Definition RAW_HDR_LEN : Z := 0.
Definition FDDI_HDR_LEN : Z := 21.

(** What the translation unit takes from outside: the macros its
    preprocessor conditionals test, the byte order and [AF_INET6] of the
    host, the global option [opt_want_pppoe] (opt.h), and the protocol
    number [IPPROTO_INVALID] that decode.h reserves for packets that must
    not be accounted, whose value neither the sources nor the spec give. *)
Record env := mk_env {
  is_OpenBSD : bool;            (* defined(__OpenBSD__) *)
  is_NetBSD : bool;             (* defined(__NetBSD__) *)
  has_DLT_LINUX_SLL : bool;     (* defined(DLT_LINUX_SLL) *)
  host_big_endian : bool;
  AF_INET6 : Z;
  opt_want_pppoe : bool;
  IPPROTO_INVALID : Z
}.

(** Link types of <pcap.h>. *)
Definition DLT_NULL : Z := 0.
Definition DLT_EN10MB : Z := 1.
Definition DLT_PPP : Z := 9.
Definition DLT_FDDI : Z := 10.
Definition DLT_PPP_SERIAL : Z := 50.
Definition DLT_PPP_ETHER : Z := 51.
Definition DLT_LINUX_SLL : Z := 113.
Definition DLT_RAW (E : env) : Z := if is_OpenBSD E then 14 else 12.
Definition DLT_LOOP (E : env) : Z := if is_OpenBSD E then 12 else 108.

(** [struct pcap_pkthdr]: the fields the decoders read. *)
Record pcap_pkthdr := mk_pkthdr {
  ts_tv_sec : Z;
  caplen : Z
}.

(** Byte-order helpers for the one field that is read in host order. *)
Definition bswap32 (v : Z) : Z :=
  Z.lor (Z.shiftl (Z.land v 255) 24)
   (Z.lor (Z.shiftl (Z.land (Z.shiftr v 8) 255) 16)
     (Z.lor (Z.shiftl (Z.land (Z.shiftr v 16) 255) 8)
            (Z.land (Z.shiftr v 24) 255))).

(** ** The decoders *)

Section Decode.

Variable E : env.

(** [*(const uint32_t * )p] for the four bytes [bs] at [p]. *)
Definition load32 (bs : list byte) : Z :=
  match bs with
  | [b0; b1; b2; b3] =>
      if host_big_endian E then be32 b0 b1 b2 b3 else be32 b3 b2 b1 b0
  | _ => 0
  end.

Definition ntohl (v : Z) : Z := if host_big_endian E then v else bswap32 v.

Definition decode_ip_payload (pdata : list byte) (len : Z) (sm : pktsummary)
  : M pktsummary :=
  if proto sm =? IPPROTO_TCP then
    if len <? TCP_HDR_LEN then
      verbosef "tcp: packet too short (%u bytes)" [len] ;;;
      ret (set_proto sm (IPPROTO_INVALID E))  (* don't do accounting! *)
    else
      th_sport <- ntohs_at pdata 0 ;;
      let sm := set_src_port sm th_sport in
      th_dport <- ntohs_at pdata 2 ;;
      let sm := set_dst_port sm th_dport in
      th_flags <- byte_at pdata 13 ;;
      ret (set_tcp_flags sm
             (Z.land (u8 th_flags)
                (Z.lor TH_FIN (Z.lor TH_SYN (Z.lor TH_RST
                   (Z.lor TH_PUSH (Z.lor TH_ACK TH_URG)))))))
  else if proto sm =? IPPROTO_UDP then
    if len <? UDP_HDR_LEN then
      verbosef "udp: packet too short (%u bytes)" [len] ;;;
      ret (set_proto sm (IPPROTO_INVALID E))  (* don't do accounting! *)
    else
      uh_sport <- ntohs_at pdata 0 ;;
      let sm := set_src_port sm uh_sport in
      uh_dport <- ntohs_at pdata 2 ;;
      ret (set_dst_port sm uh_dport)
  else if (proto sm =? IPPROTO_ICMP) || (proto sm =? IPPROTO_ICMPV6)
          || (proto sm =? IPPROTO_AH) || (proto sm =? IPPROTO_ESP)
          || (proto sm =? IPPROTO_OSPF) then
    ret sm   (* known protocol, don't complain about it *)
  else
    verbosef "ip: unknown protocol %d" [proto sm] ;;; ret sm.

Definition decode_ipv6 (pdata : list byte) (len : Z) (sm : pktsummary)
  : M pktsummary :=
  if len <? IPV6_HDR_LEN then
    verbosef "ipv6: packet too short (%u bytes)" [len] ;;; ret sm
  else
    ip6_plen <- ntohs_at pdata 4 ;;
    let sm := set_len sm (to_u16 (ip6_plen + IPV6_HDR_LEN)) in
    ip6_nxt <- byte_at pdata 6 ;;
    let sm := set_proto sm (u8 ip6_nxt) in
    ip6_src <- bytes_at pdata 8 16 ;;
    let sm := set_src sm (mk_addr IPv6 ip6_src) in
    ip6_dst <- bytes_at pdata 24 16 ;;
    let sm := set_dst sm (mk_addr IPv6 ip6_dst) in
    decode_ip_payload (skipn (Z.to_nat IPV6_HDR_LEN) pdata)
                      (sub32 len IPV6_HDR_LEN) sm.

(** [hdr->ip_v]: the high nibble of the first byte of [struct ip]. *)
Definition ip_v (vhl : byte) : Z := Z.shiftr (u8 vhl) 4.

Definition decode_ip (pdata : list byte) (len : Z) (sm : pktsummary)
  : M pktsummary :=
  emit (EvDecodeIp len) ;;;
  vhl <- byte_at pdata 0 ;;
  if ip_v vhl =? 6 then
    (* Redirect parsing of IPv6 packets. *)
    decode_ipv6 pdata len sm
  else if len <? IP_HDR_LEN then
    verbosef "ip: packet too short (%u bytes)" [len] ;;; ret sm
  else if negb (ip_v vhl =? 4) then
    verbosef "ip: version %d (expecting 4 or 6)" [ip_v vhl] ;;; ret sm
  else
    ip_len <- ntohs_at pdata 2 ;;
    let sm := set_len sm ip_len in
    ip_p <- byte_at pdata 9 ;;
    let sm := set_proto sm (u8 ip_p) in
    ip_src <- bytes_at pdata 12 4 ;;
    let sm := set_src sm (mk_addr IPv4 ip_src) in
    ip_dst <- bytes_at pdata 16 4 ;;
    let sm := set_dst sm (mk_addr IPv4 ip_dst) in
    decode_ip_payload (skipn (Z.to_nat IP_HDR_LEN) pdata)
                      (sub32 len IP_HDR_LEN) sm.


(** [a && b] of C: [b] is evaluated only when [a] holds. *)
Definition andM (a b : M bool) : M bool :=
  x <- a ;; if x then b else ret false.

(** [pdata[i] == v]. *)
Definition byte_is (pdata : list byte) (i : nat) (v : Z) : M bool :=
  b <- byte_at pdata i ;; ret (u8 b =? v).

Definition decode_pppoe_real (pdata : list byte) (len : Z) (sm : pktsummary)
  : M pktsummary :=
  if len <? PPPOE_HDR_LEN then
    verbosef "pppoe: packet too short (%u bytes)" [len] ;;; ret sm
  else
    code <- byte_at pdata 1 ;;
    if negb (u8 code =? 0x00) then
      verbosef "pppoe: code = 0x%02x, expecting 0; ignoring." [u8 code] ;;;
      ret sm
    else
      lcp <- andM (byte_is pdata 6 0xc0) (byte_is pdata 7 0x21) ;;
      if lcp then ret sm else   (* LCP *)
      lqr <- andM (byte_is pdata 6 0xc0) (byte_is pdata 7 0x25) ;;
      if lqr then ret sm else   (* LQR *)
      is_ip <- andM (byte_is pdata 6 0x00) (byte_is pdata 7 0x21) ;;
      if is_ip then
        sm <- decode_ip (skipn (Z.to_nat PPPOE_HDR_LEN) pdata)
                        (sub32 len PPPOE_HDR_LEN) sm ;;
        acct_for sm ;;; ret sm
      else
        b6 <- byte_at pdata 6 ;;
        b7 <- byte_at pdata 7 ;;
        verbosef "pppoe: non-IP PPPoE packet (0x%02x%02x); ignoring."
                 [u8 b6; u8 b7] ;;;
        ret sm.

Definition decode_ether (pheader : pcap_pkthdr) (pdata : list byte)
  : M pktsummary :=
  let sm := pktsummary_zero in
  let sm := set_time sm (ts_tv_sec pheader) in
  if caplen pheader <? ETHER_HDR_LEN then
    verbosef "ether: packet too short (%u bytes)" [caplen pheader] ;;; ret sm
  else
    ether_shost <- bytes_at pdata 6 6 ;;
    let sm := set_src_mac sm ether_shost in
    ether_dhost <- bytes_at pdata 0 6 ;;
    let sm := set_dst_mac sm ether_dhost in
    type <- ntohs_at pdata 12 ;;
    if (type =? ETHERTYPE_IP) || (type =? ETHERTYPE_IPV6) then
      if negb (opt_want_pppoe E) then
        sm <- decode_ip (skipn (Z.to_nat ETHER_HDR_LEN) pdata)
                        (sub32 (caplen pheader) ETHER_HDR_LEN) sm ;;
        acct_for sm ;;; ret sm
      else
        verbosef "ether: discarded IP packet, expecting PPPoE instead" [] ;;;
        ret sm
    else if type =? ETHERTYPE_ARP then
      ret sm   (* known protocol, don't complain about it. *)
    else if type =? ETHERTYPE_PPPOE then
      if opt_want_pppoe E then
        decode_pppoe_real (skipn (Z.to_nat ETHER_HDR_LEN) pdata)
                          (sub32 (caplen pheader) ETHER_HDR_LEN) sm
      else
        verbosef "ether: got PPPoE frame: maybe you want --pppoe" [] ;;;
        ret sm
    else
      verbosef "ether: unknown protocol (0x%04x)" [type] ;;; ret sm.

Definition decode_loop (pheader : pcap_pkthdr) (pdata : list byte)
  : M pktsummary :=
  let sm := pktsummary_zero in
  if caplen pheader <? NULL_HDR_LEN then
    verbosef "loop: packet too short (%u bytes)" [caplen pheader] ;;; ret sm
  else
    raw <- bytes_at pdata 0 4 ;;
    let family := load32 raw in
    let family := if is_OpenBSD E then ntohl family else family in
    if family =? AF_INET then
      (* OpenBSD tun or FreeBSD tun or FreeBSD lo *)
      sm <- decode_ip (skipn (Z.to_nat NULL_HDR_LEN) pdata)
                      (sub32 (caplen pheader) NULL_HDR_LEN) sm ;;
      let sm := set_time sm (ts_tv_sec pheader) in
      acct_for sm ;;; ret sm
    else if family =? AF_INET6 E then
      sm <- decode_ip (skipn (Z.to_nat NULL_HDR_LEN) pdata)
                      (sub32 (caplen pheader) NULL_HDR_LEN) sm ;;
      let sm := set_time sm (ts_tv_sec pheader) in
      acct_for sm ;;; ret sm
    else
      verbosef "loop: unknown family (%x)" [family] ;;; ret sm.

Definition decode_ppp (pheader : pcap_pkthdr) (pdata : list byte)
  : M pktsummary :=
  let sm := pktsummary_zero in
  if caplen pheader <? PPPOE_HDR_LEN then
    verbosef "ppp: packet too short (%u bytes)" [caplen pheader] ;;; ret sm
  else
    is_ip <- andM (byte_is pdata 2 0x00) (byte_is pdata 3 0x21) ;;
    if is_ip then
      sm <- decode_ip (skipn (Z.to_nat PPP_HDR_LEN) pdata)
                      (sub32 (caplen pheader) PPP_HDR_LEN) sm ;;
      let sm := set_time sm (ts_tv_sec pheader) in
      acct_for sm ;;; ret sm
    else
      verbosef "non-IP PPP packet; ignoring." [] ;;; ret sm.

Definition decode_pppoe (pheader : pcap_pkthdr) (pdata : list byte)
  : M pktsummary :=
  let sm := pktsummary_zero in
  let sm := set_time sm (ts_tv_sec pheader) in
  decode_pppoe_real pdata (caplen pheader) sm.

(** very similar to decode_ether ... *)
Definition decode_linux_sll (pheader : pcap_pkthdr) (pdata : list byte)
  : M pktsummary :=
  let sm := pktsummary_zero in
  if caplen pheader <? SLL_HDR_LEN then
    verbosef "linux_sll: packet too short (%u bytes)" [caplen pheader] ;;;
    ret sm
  else
    type <- ntohs_at pdata 14 ;;   (* hdr->ether_type *)
    if (type =? ETHERTYPE_IP) || (type =? ETHERTYPE_IPV6) then
      sm <- decode_ip (skipn (Z.to_nat SLL_HDR_LEN) pdata)
                      (sub32 (caplen pheader) SLL_HDR_LEN) sm ;;
      let sm := set_time sm (ts_tv_sec pheader) in
      acct_for sm ;;; ret sm
    else if type =? ETHERTYPE_ARP then
      ret sm   (* known protocol, don't complain about it. *)
    else
      verbosef "linux_sll: unknown protocol (%04x)" [type] ;;; ret sm.

Definition decode_raw (pheader : pcap_pkthdr) (pdata : list byte)
  : M pktsummary :=
  let sm := pktsummary_zero in
  sm <- decode_ip pdata (caplen pheader) sm ;;
  let sm := set_time sm (ts_tv_sec pheader) in
  acct_for sm ;;; ret sm.

(** ** Link-type header information *)

(** A [pcap_handler]; the unused [user] argument is left out. *)
Definition pcap_handler : Type := pcap_pkthdr -> list byte -> M pktsummary.

(** [struct linkhdr]; a null [handler] is [None]. *)
Record linkhdr := mk_linkhdr {
  linktype : Z;
  hdrlen : Z;
  handler : option pcap_handler
}.

Definition linkhdrs : list linkhdr :=
  [ mk_linkhdr DLT_EN10MB ETHER_HDR_LEN (Some decode_ether);
    mk_linkhdr (DLT_LOOP E) NULL_HDR_LEN (Some decode_loop);
    mk_linkhdr DLT_NULL NULL_HDR_LEN (Some decode_loop);
    mk_linkhdr DLT_PPP PPP_HDR_LEN (Some decode_ppp) ]
  ++ (if is_NetBSD E
      then [ mk_linkhdr DLT_PPP_SERIAL PPP_HDR_LEN (Some decode_ppp) ]
      else [])
  ++ [ mk_linkhdr DLT_FDDI FDDI_HDR_LEN None;
       mk_linkhdr DLT_PPP_ETHER PPPOE_HDR_LEN (Some decode_pppoe) ]
  ++ (if has_DLT_LINUX_SLL E
      then [ mk_linkhdr DLT_LINUX_SLL SLL_HDR_LEN (Some decode_linux_sll) ]
      else [])
  ++ [ mk_linkhdr (DLT_RAW E) RAW_HDR_LEN (Some decode_raw);
       mk_linkhdr (-1) 0 None ].

(** The loop of [getlinkhdr] over the entries from index [i] on: it stops at
    the first entry whose linktype is -1. *)
Fixpoint getlinkhdr_scan (tbl : list linkhdr) (lt : Z) : option linkhdr :=
  match tbl with
  | [] => None
  | lh :: rest =>
      if linktype lh =? -1 then None
      else if linktype lh =? lt then Some lh
      else getlinkhdr_scan rest lt
  end.

(** Returns the linkhdr record matching the given linktype, or [None] (NULL)
    if no matching entry is found. *)
Definition getlinkhdr (lt : Z) : option linkhdr := getlinkhdr_scan linkhdrs lt.

End Decode.

(** The conversion of the [(int)] cast. *)
Definition to_int (v : Z) : Z := (v + 2 ^ 31) mod 2 ^ 32 - 2 ^ 31.

(** Returns the minimum snaplen needed to decode everything up to the TCP/UDP
    packet headers.  The IPv6 header is normative. *)
Definition getsnaplen (lh : linkhdr) : Z :=
  to_int (hdrlen lh + IPV6_HDR_LEN + Z.max TCP_HDR_LEN UDP_HDR_LEN).


(** ** Notions used in the statements *)

(** The entries of the table in front of its sentinel. *)
Definition registered (E : env) (lh : linkhdr) : Prop :=
  In lh (linkhdrs E) /\ linktype lh <> -1.

(** The diagnostics that report a short packet. *)
Definition too_short (e : event) : bool :=
  match e with
  | EvVerbose fmt _ =>
      match String.index 0 "packet too short" fmt with
      | Some _ => true
      | None => false
      end
  | _ => false
  end.

(** A trace of diagnostics only: no call of the sink, no entry into the IP
    demuxer. *)
Definition quiet (tr : list event) : bool :=
  forallb (fun e => match e with EvVerbose _ _ => true | _ => false end) tr.

(** The TCP or UDP header is cut short by a payload of [n] bytes. *)
Definition transport_short (p n : Z) : bool :=
  ((p =? IPPROTO_TCP) && (n <? TCP_HDR_LEN))
  || ((p =? IPPROTO_UDP) && (n <? UDP_HDR_LEN)).

(** The flags that [decode_ip_payload] keeps. *)
Definition tcp_flags_mask : Z :=
  Z.lor TH_FIN (Z.lor TH_SYN (Z.lor TH_RST
    (Z.lor TH_PUSH (Z.lor TH_ACK TH_URG)))).

(** The summary as [decode_ipv6] fills it from the header at [pdata]. *)
Definition ipv6_filled (pdata : list byte) (sm : pktsummary) : pktsummary :=
  set_dst
    (set_src
       (set_proto
          (set_len sm
             (to_u16 (ntohs (nth 4 pdata x00) (nth 5 pdata x00) + 40)))
          (u8 (nth 6 pdata x00)))
       (mk_addr IPv6 (firstn 16 (skipn 8 pdata))))
    (mk_addr IPv6 (firstn 16 (skipn 24 pdata))).

(** The summary as [decode_ip] fills it from the IPv4 header at [pdata]. *)
Definition ipv4_filled (pdata : list byte) (sm : pktsummary) : pktsummary :=
  set_dst
    (set_src
       (set_proto
          (set_len sm (ntohs (nth 2 pdata x00) (nth 3 pdata x00)))
          (u8 (nth 9 pdata x00)))
       (mk_addr IPv4 (firstn 4 (skipn 12 pdata))))
    (mk_addr IPv4 (firstn 4 (skipn 16 pdata))).

(** The number of calls of the accounting sink, and of entries into the IP
    demuxer, in a trace. *)
Fixpoint count_acct (tr : list event) : nat :=
  match tr with
  | [] => 0
  | EvAcct _ :: tr' => S (count_acct tr')
  | _ :: tr' => count_acct tr'
  end.

Fixpoint count_ip (tr : list event) : nat :=
  match tr with
  | [] => 0
  | EvDecodeIp _ :: tr' => S (count_ip tr')
  | _ :: tr' => count_ip tr'
  end.

(** A run that neither calls the sink nor enters the IP demuxer. *)
Definition silent {A} (m : M A) : Prop := quiet (fst m) = true.

(** The fields of the summary that the link layer owns. *)
Definition link_eq (sm' sm : pktsummary) : Prop :=
  time sm' = time sm /\ src_mac sm' = src_mac sm /\ dst_mac sm' = dst_mac sm.

(** A silent run whose result, if any, has the link-layer fields of
    [base]. *)
Definition keeps (base : pktsummary) (m : M pktsummary) : Prop :=
  silent m /\ forall sm', snd m = Some sm' -> link_eq sm' base.

(** What a run of a link-layer decoder looks like: at most one entry into
    the IP demuxer and at most one call of the sink; a call of the sink is
    on the summary the decoder ends with, which satisfies [Q]; a run that
    completes calls the sink as often as it enters the IP demuxer, and a run
    that faults has not called it. *)
Definition link_run (Q : pktsummary -> Prop) (m : M pktsummary) : Prop :=
  (count_acct (fst m) <= 1)%nat /\ (count_ip (fst m) <= 1)%nat /\
  (forall sm, In (EvAcct sm) (fst m) -> Q sm /\ snd m = Some sm) /\
  match snd m with
  | Some _ => count_acct (fst m) = count_ip (fst m)
  | None => count_acct (fst m) = 0%nat
  end.

(** A run that completes whenever each entry into the IP demuxer that it
    records was made with at least one byte. *)
Definition completes {A} (m : M A) : Prop :=
  (forall n, In (EvDecodeIp n) (fst m) -> 1 <= n) -> snd m <> None.

(** The MAC addresses that a decoder of link type [lt] hands to the sink
    for the frame [pdata]. *)
Definition mac_fields (lt : Z) (pdata : list byte) (sm : pktsummary) : Prop :=
  if lt =? DLT_EN10MB
  then src_mac sm = firstn 6 (skipn 6 pdata) /\ dst_mac sm = firstn 6 pdata
  else src_mac sm = mac_zero /\ dst_mac sm = mac_zero.

(** ** Sample frames *)

(** A little-endian Linux host: [DLT_LINUX_SLL] is defined, [AF_INET6] is 10,
    PPPoE mode is off; 254 stands for [IPPROTO_INVALID]. *)
Definition env_linux : env := mk_env false false true false 10 false 254.

(** An Ethernet frame carrying IPv4/TCP, 10.0.0.1:1234 to 10.0.0.2:80, with
    flags byte 0xd2 (two reserved bits, ACK and SYN). *)
Definition eth_ipv4_tcp : list byte :=
  [x00; x11; x22; x33; x44; x55;  x66; x77; x88; x99; xaa; xbb;  x08; x00;
   x45; x00; x00; x28;  x00; x00; x00; x00;  x40; x06; x00; x00;
   x0a; x00; x00; x01;  x0a; x00; x00; x02;
   x04; xd2;  x00; x50;  x00; x00; x00; x00;  x00; x00; x00; x00;
   x50; xd2;  x00; x00;  x00; x00; x00; x00].


(** An IPv6 packet carrying a UDP datagram of 8 bytes, 2001:db8::1 port 53
    to 2001:db8::2 port 1234. *)
Definition ipv6_udp : list byte :=
  [x60; x00; x00; x00; x00; x08; x11; x40;
   x20; x01; x0d; xb8; x00; x00; x00; x00;
   x00; x00; x00; x00; x00; x00; x00; x01;
   x20; x01; x0d; xb8; x00; x00; x00; x00;
   x00; x00; x00; x00; x00; x00; x00; x02;
   x00; x35; x04; xd2; x00; x08; x00; x00].

(** A Linux cooked-capture frame, sent from the link address
    66:77:88:99:aa:bb, carrying the IPv4/TCP packet of [eth_ipv4_tcp]. *)
Definition sll_ipv4_tcp : list byte :=
  [x00; x00;  x00; x01;  x00; x06;
   x66; x77; x88; x99; xaa; xbb; x00; x00;  x08; x00]
  ++ skipn 14 eth_ipv4_tcp.

(** A PPP frame of 7 captured bytes: address, control, protocol 0x0021 (IP)
    and the first 3 bytes of an IPv4 header. *)
Definition ppp_ip_7 : list byte := [xff; x03; x00; x21; x45; x00; x00].

(** [eth_ipv4_tcp] with the version nibble changed to 5. *)
Definition eth_ipv5 : list byte :=
  firstn 14 eth_ipv4_tcp ++ [x55] ++ skipn 15 eth_ipv4_tcp.

(** ** Notions used in the further properties *)

(** The protocols that [decode_ip_payload] accepts without reading
    anything. *)
Definition opaque_proto (p : Z) : bool :=
  (p =? IPPROTO_ICMP) || (p =? IPPROTO_ICMPV6) || (p =? IPPROTO_AH)
  || (p =? IPPROTO_ESP) || (p =? IPPROTO_OSPF).

(** The summary of [decode_ether] once the Ethernet header is read: zeroed,
    with the capture time and the two MAC addresses of the frame. *)
Definition ether_sm (pheader : pcap_pkthdr) (pdata : list byte) : pktsummary :=
  set_dst_mac
    (set_src_mac (set_time pktsummary_zero (ts_tv_sec pheader))
                 (firstn 6 (skipn 6 pdata)))
    (firstn 6 pdata).

(** The ethertype of an Ethernet frame, and of a Linux cooked-capture
    frame. *)
Definition ether_type (pdata : list byte) : Z :=
  ntohs (nth 12 pdata x00) (nth 13 pdata x00).

Definition sll_ether_type (pdata : list byte) : Z :=
  ntohs (nth 14 pdata x00) (nth 15 pdata x00).

(** An ARP request in an Ethernet frame (the first 20 bytes). *)
Definition eth_arp : list byte :=
  [xff; xff; xff; xff; xff; xff;  x66; x77; x88; x99; xaa; xbb;  x08; x06;
   x00; x01; x08; x00; x06; x04].

(** A PPPoE session frame carrying an LCP echo request. *)
Definition pppoe_lcp : list byte :=
  [x11; x00; x00; x01; x00; x0a;  xc0; x21;  x09; x01; x00; x08;
   x00; x00; x00; x00].

(** A Linux cooked-capture frame carrying the IPv6/UDP packet of
    [ipv6_udp]. *)
Definition sll_ipv6_udp : list byte :=
  [x00; x00;  x00; x01;  x00; x06;
   x66; x77; x88; x99; xaa; xbb; x00; x00;  x86; xdd]
  ++ ipv6_udp.

(** A PPPoE session frame carrying the IPv4/TCP packet of
    [eth_ipv4_tcp]. *)
Definition pppoe_ipv4_tcp : list byte :=
  [x11; x00; x00; x01; x00; x2a;  x00; x21] ++ skipn 14 eth_ipv4_tcp.

(** Every entry into the IP demuxer recorded by the run was made with a
    length that satisfies [Pip], and every call of the sink with a summary
    that satisfies [Pacct]. *)
Definition calls_sat {A} (Pip : Z -> Prop) (Pacct : pktsummary -> Prop)
    (m : M A) : Prop :=
  forall e, In e (fst m) ->
    match e with
    | EvVerbose _ _ => True
    | EvAcct sm => Pacct sm
    | EvDecodeIp n => Pip n
    end.

(** The result of a run, if it has one, satisfies [R]. *)
Definition post {A} (R : A -> Prop) (m : M A) : Prop :=
  forall a, snd m = Some a -> R a.

(** An address as [decode_ip] and [decode_ipv6] leave it: untouched, or 4
    bytes tagged IPv4, or 16 bytes tagged IPv6. *)
Definition addr_wf (a : addr) : Prop :=
  match family a with
  | AF_unset => ip a = []
  | IPv4 => List.length (ip a) = 4%nat
  | IPv6 => List.length (ip a) = 16%nat
  end.

(** The shape of a summary: flags within the six TCP flags, 16-bit ports,
    two addresses of one family, 6-byte MAC addresses. *)
Definition summary_shape (sm : pktsummary) : Prop :=
  0 <= tcp_flags sm <= 63 /\
  0 <= src_port sm < 65536 /\ 0 <= dst_port sm < 65536 /\
  addr_wf (src sm) /\ addr_wf (dst sm) /\
  family (src sm) = family (dst sm) /\
  List.length (src_mac sm) = 6%nat /\ List.length (dst_mac sm) = 6%nat.

(** Ports are set only for TCP and UDP, flags only for TCP. *)
Definition transport_guarded (sm : pktsummary) : Prop :=
  (tcp_flags sm <> 0 -> proto sm = IPPROTO_TCP) /\
  (src_port sm <> 0 \/ dst_port sm <> 0 ->
   proto sm = IPPROTO_TCP \/ proto sm = IPPROTO_UDP).

(** The network and transport fields of a summary are still zero. *)
Definition net_zero (sm : pktsummary) : Prop :=
  src sm = addr_zero /\ dst sm = addr_zero /\
  src_port sm = 0 /\ dst_port sm = 0 /\ tcp_flags sm = 0.

(** What [decode_ip] hands back for a summary [sm] whose network and
    transport fields were zero. *)
Definition ip_result (sm sm' : pktsummary) : Prop :=
  link_eq sm' sm /\
  0 <= tcp_flags sm' <= 63 /\
  0 <= src_port sm' < 65536 /\ 0 <= dst_port sm' < 65536 /\
  addr_wf (src sm') /\ addr_wf (dst sm') /\
  family (src sm') = family (dst sm') /\
  transport_guarded sm'.

(** The length a decoder of the row [lh] hands to [decode_ip] for a frame
    of [caplen] captured bytes: what is left behind the link header, and
    for Ethernet in PPPoE mode what is left behind the PPPoE header as
    well. *)
Definition dispatch_len (E : env) (lh : linkhdr) (pheader : pcap_pkthdr)
    (n : Z) : Prop :=
  0 <= n /\
  (n = caplen pheader - hdrlen lh \/
   (linktype lh = DLT_EN10MB /\ opt_want_pppoe E = true /\
    n = caplen pheader - hdrlen lh - PPPOE_HDR_LEN)).

(** What reaches the sink from a decoder called with [pheader]. *)
Definition sink_ok (pheader : pcap_pkthdr) (sm : pktsummary) : Prop :=
  time sm = ts_tv_sec pheader /\ summary_shape sm /\ transport_guarded sm.

(** The address family of a null/loopback frame as [decode_loop] sees it:
    the first four bytes in network order on OpenBSD and on a big-endian
    host, in little-endian order otherwise. *)
Definition loop_family (E : env) (pdata : list byte) : Z :=
  if is_OpenBSD E || host_big_endian E
  then be32 (nth 0 pdata x00) (nth 1 pdata x00) (nth 2 pdata x00)
            (nth 3 pdata x00)
  else be32 (nth 3 pdata x00) (nth 2 pdata x00) (nth 1 pdata x00)
            (nth 0 pdata x00).

(** A run without a "packet too short" diagnostic. *)
Definition no_short {A} (m : M A) : Prop :=
  forall e, In e (fst m) -> too_short e = false.

(** The 40 bytes of an IPv6 header with next header TCP, followed by a
    20-byte TCP header. *)
Definition ipv6_tcp : list byte :=
  [x60; x00; x00; x00; x00; x14; x06; x40] ++ firstn 32 (skipn 8 ipv6_udp)
  ++ skipn 34 eth_ipv4_tcp.

(** An Ethernet frame carrying [ipv6_tcp], 74 bytes. *)
Definition eth_ipv6_tcp_74 : list byte :=
  firstn 12 eth_ipv4_tcp ++ [x86; xdd] ++ ipv6_tcp.

(** An Ethernet frame carrying a PPPoE session frame with [ipv6_tcp], cut
    after 74 bytes. *)
Definition eth_pppoe_ipv6_tcp_74 : list byte :=
  firstn 12 eth_ipv4_tcp ++ [x88; x64]
  ++ [x11; x00; x00; x01; x00; x3e; x00; x21] ++ firstn 52 ipv6_tcp.

(** ** Notions used in the amended statements *)




(** An IPv6 header with payload length 0xffff and next header TCP, followed
    by 5 bytes. *)
Definition ipv6_plen_ffff : list byte :=
  [x60; x00; x00; x00; xff; xff; x06; x40] ++ firstn 32 (skipn 8 ipv6_udp)
  ++ [x04; xd2; x00; x50; x00].

(** The six link-layer decoders of decode.c. *)
Inductive link := L_ether | L_loop | L_ppp | L_pppoe | L_linux_sll | L_raw.

Definition decoder_of (E : env) (l : link) : pcap_handler :=
  match l with
  | L_ether => decode_ether E
  | L_loop => decode_loop E
  | L_ppp => decode_ppp E
  | L_pppoe => decode_pppoe E
  | L_linux_sll => decode_linux_sll E
  | L_raw => decode_raw E
  end.







(** * Properties *)

(** ** The run monad *)

Lemma bind_ret A B (a : A) (f : A -> M B) : bind (ret a) f = f a.
Proof. unfold bind, ret; simpl. destruct (f a); reflexivity. Qed.

Lemma bind_emit B (e : event) (f : unit -> M B) :
  bind (emit e) f = (e :: fst (f tt), snd (f tt)).
Proof. reflexivity. Qed.

Lemma bind_fault A B (t : list event) (f : A -> M B) :
  bind (t, None) f = (t, None).
Proof. reflexivity. Qed.

Lemma byte_at_ok (pdata : list byte) (i : nat) :
  (i < List.length pdata)%nat -> byte_at pdata i = ret (nth i pdata x00).
Proof.
  intros H. unfold byte_at, ret. f_equal. now apply nth_error_nth'.
Qed.

Lemma bytes_at_ok (pdata : list byte) (i n : nat) :
  (i + n <= List.length pdata)%nat ->
  bytes_at pdata i n = ret (firstn n (skipn i pdata)).
Proof.
  intros H. unfold bytes_at.
  destruct (Nat.leb_spec (i + n) (List.length pdata)); [reflexivity | lia].
Qed.

Lemma ntohs_at_ok (pdata : list byte) (i : nat) :
  (S i < List.length pdata)%nat ->
  ntohs_at pdata i = ret (ntohs (nth i pdata x00) (nth (S i) pdata x00)).
Proof.
  intros H. unfold ntohs_at.
  rewrite !byte_at_ok by lia. now rewrite !bind_ret.
Qed.

Lemma byte_is_ok (pdata : list byte) (i : nat) (v : Z) :
  (i < List.length pdata)%nat ->
  byte_is pdata i v = ret (u8 (nth i pdata x00) =? v).
Proof.
  intros H. unfold byte_is. rewrite byte_at_ok by lia. now rewrite bind_ret.
Qed.

(** Resolves the reads of a decoder that are within the buffer. *)
Ltac reads :=
  repeat first
    [ rewrite ntohs_at_ok by (simpl; lia)
    | rewrite byte_at_ok by (simpl; lia)
    | rewrite bytes_at_ok by (simpl; lia)
    | rewrite byte_is_ok by (simpl; lia)
    | rewrite bind_ret ];
  cbv beta.

(** ** The link-type table *)

Lemma getlinkhdr_scan_In (tbl : list linkhdr) (lt : Z) (lh : linkhdr) :
  getlinkhdr_scan tbl lt = Some lh ->
  In lh tbl /\ linktype lh = lt /\ linktype lh <> -1.
Proof.
  induction tbl as [|e rest IH]; simpl; [discriminate|].
  destruct (Z.eqb_spec (linktype e) (-1)); [discriminate|].
  destruct (Z.eqb_spec (linktype e) lt).
  - intros [= <-]. auto.
  - intros H. destruct (IH H) as (? & ? & ?). auto.
Qed.

Lemma getlinkhdr_registered (E : env) (lt : Z) (lh : linkhdr) :
  getlinkhdr E lt = Some lh -> registered E lh /\ linktype lh = lt.
Proof.
  intros H. apply getlinkhdr_scan_In in H. unfold registered. tauto.
Qed.

(** Case analysis on the entries of the table, for each configuration of
    the conditionally compiled rows. *)
Ltac table_cases E H :=
  destruct E as [ob nb sll be af6 pp inv];
  unfold linkhdrs, DLT_LOOP, DLT_RAW in H; simpl in H;
  destruct ob, nb, sll; simpl in H;
  repeat (destruct H as [H | H]; [subst | ]); try contradiction.

Lemma registered_hdrlen_small (E : env) (lh : linkhdr) :
  In lh (linkhdrs E) -> 0 <= hdrlen lh <= 21.
Proof.
  intros H. table_cases E H; simpl; vm_compute; split; discriminate.
Qed.

(** C2: for every entry of the link-header table in front of the sentinel,
    and so for every descriptor that [getlinkhdr] returns, [getsnaplen] is
    the entry's header length plus 40 (the IPv6 header) plus the larger of 20
    and 8 (the TCP and UDP headers), that is the header length plus 60. *)
Theorem getsnaplen_registered (E : env) (lh : linkhdr) :
  registered E lh \/ (exists lt, getlinkhdr E lt = Some lh) ->
  getsnaplen lh = hdrlen lh + 40 + Z.max 20 8 /\
  getsnaplen lh = hdrlen lh + 60.
Proof.
  intros H.
  assert (Hin : In lh (linkhdrs E)).
  { destruct H as [[H _] | [lt H]]; [exact H|].
    now apply getlinkhdr_registered in H as [[H _] _]. }
  apply registered_hdrlen_small in Hin.
  unfold getsnaplen, to_int, IPV6_HDR_LEN, TCP_HDR_LEN, UDP_HDR_LEN.
  replace (Z.max 20 8) with 20 by reflexivity.
  rewrite Z.mod_small by lia. lia.
Qed.

Lemma getsnaplen_registered_witness :
  getsnaplen (mk_linkhdr DLT_EN10MB ETHER_HDR_LEN
                (Some (decode_ether env_linux))) = 14 + 40 + Z.max 20 8 /\
  getsnaplen (mk_linkhdr DLT_EN10MB ETHER_HDR_LEN
                (Some (decode_ether env_linux))) = 14 + 60.
Proof.
  apply (@getsnaplen_registered env_linux
           (mk_linkhdr DLT_EN10MB ETHER_HDR_LEN
              (Some (decode_ether env_linux)))).
  left. split; [simpl; auto | discriminate].
Defined.

(** C10: the lookup of the FDDI link type succeeds with a descriptor whose
    handler is null, while every other entry in front of the sentinel has a
    handler; so a descriptor obtained from a successful lookup lacks a
    decoder exactly when the link type is FDDI. *)
Theorem getlinkhdr_fddi_no_handler (E : env) :
  (exists lh, getlinkhdr E DLT_FDDI = Some lh /\
              hdrlen lh = FDDI_HDR_LEN /\ handler lh = None) /\
  (forall lh, registered E lh -> linktype lh <> DLT_FDDI ->
              handler lh <> None) /\
  (forall lt lh, getlinkhdr E lt = Some lh ->
                 (handler lh = None <-> lt = DLT_FDDI)).
Proof.
  assert (Hother : forall lh, registered E lh ->
            (handler lh = None <-> linktype lh = DLT_FDDI)).
  { intros lh [H Hs]. table_cases E H; simpl in *;
      try (split; intros; [discriminate | reflexivity || discriminate]);
      try (split; intros; reflexivity);
      try congruence. }
  split; [|split].
  - exists (mk_linkhdr DLT_FDDI FDDI_HDR_LEN None).
    repeat split.
    destruct E as [ob nb sll be af6 pp inv]; destruct ob, nb, sll; reflexivity.
  - intros lh Hr Hne Hnone. apply Hne. now apply Hother.
  - intros lt lh H. apply getlinkhdr_registered in H as [Hr <-].
    now apply Hother.
Qed.

Lemma getlinkhdr_fddi_no_handler_witness :
  (exists lh, getlinkhdr env_linux DLT_FDDI = Some lh /\
              hdrlen lh = FDDI_HDR_LEN /\ handler lh = None) /\
  handler (mk_linkhdr DLT_EN10MB ETHER_HDR_LEN
             (Some (decode_ether env_linux))) <> None.
Proof.
  destruct (getlinkhdr_fddi_no_handler env_linux) as (Hfddi & Hother & _).
  split; [exact Hfddi|].
  apply Hother.
  - split; [simpl; auto | discriminate].
  - discriminate.
Defined.

(** ** Frames shorter than the link header *)

(** C1: a frame whose captured length is below the header length registered
    for its link type makes the decoder of that link type log one
    "packet too short" diagnostic and return: the accounting sink is not
    called, the IP demuxer is not entered, and the summary is still the
    zeroed one in every field taken from the packet (only the capture time,
    which [decode_ether] and [decode_pppoe] store before the check, may be
    set). *)
Theorem short_frame_dropped (E : env) (lh : linkhdr) (h : pcap_handler)
    (pheader : pcap_pkthdr) (pdata : list byte) :
  registered E lh -> handler lh = Some h ->
  0 <= caplen pheader < hdrlen lh ->
  exists fmt t,
    h pheader pdata =
      ([EvVerbose fmt [caplen pheader]], Some (set_time pktsummary_zero t)) /\
    too_short (EvVerbose fmt [caplen pheader]) = true.
Proof.
  intros [Hin _] Hh Hlen.
  table_cases E Hin; simpl in Hh, Hlen;
    unfold ETHER_HDR_LEN, NULL_HDR_LEN, PPP_HDR_LEN, PPPOE_HDR_LEN,
      SLL_HDR_LEN, RAW_HDR_LEN, FDDI_HDR_LEN in Hlen;
    try discriminate; try lia; injection Hh as <-;
    unfold decode_ether, decode_loop, decode_ppp, decode_pppoe,
      decode_pppoe_real, decode_linux_sll;
    match goal with
    | |- context [?a <? ?b] =>
        let b' := eval compute in b in
        replace (a <? b) with true
          by (symmetry; apply Z.ltb_lt; change b with b'; lia)
    end;
    (do 2 eexists; split; [reflexivity | reflexivity])
    || (exists "loop: packet too short (%u bytes)", 0; split; reflexivity)
    || (exists "ppp: packet too short (%u bytes)", 0; split; reflexivity)
    || (exists "linux_sll: packet too short (%u bytes)", 0; split; reflexivity).
Qed.

Lemma short_frame_dropped_witness :
  exists fmt t,
    decode_ether env_linux (mk_pkthdr 1000 5) [x00; x11; x22; x33; x44] =
      ([EvVerbose fmt [5]], Some (set_time pktsummary_zero t)) /\
    too_short (EvVerbose fmt [5]) = true.
Proof.
  apply (@short_frame_dropped env_linux
           (mk_linkhdr DLT_EN10MB ETHER_HDR_LEN (Some (decode_ether env_linux)))
           (decode_ether env_linux) (mk_pkthdr 1000 5)
           [x00; x11; x22; x33; x44]).
  - split; [simpl; auto | discriminate].
  - reflexivity.
  - simpl. unfold ETHER_HDR_LEN. lia.
Defined.

(** ** The transport demuxer *)

(** [decode_ip_payload] never reads past the [n] bytes it is given, logs at
    most diagnostics, and leaves what the link and network layers wrote. *)
Lemma decode_ip_payload_frame (E : env) (pdata : list byte) (n : Z)
    (sm : pktsummary) :
  n <= Z.of_nat (List.length pdata) ->
  exists tr sm',
    decode_ip_payload E pdata n sm = (tr, Some sm') /\
    quiet tr = true /\
    time sm' = time sm /\ src_mac sm' = src_mac sm /\
    dst_mac sm' = dst_mac sm /\ len sm' = len sm /\
    src sm' = src sm /\ dst sm' = dst sm /\
    proto sm' = (if transport_short (proto sm) n
                 then IPPROTO_INVALID E else proto sm).
Proof.
  intros Hn. unfold decode_ip_payload, transport_short.
  destruct (Z.eqb_spec (proto sm) IPPROTO_TCP) as [Ht|Ht]; simpl.
  - destruct (Z.ltb_spec n TCP_HDR_LEN) as [Hs|Hs]; simpl.
    + do 2 eexists; split; [reflexivity|]. simpl. tauto.
    + unfold TCP_HDR_LEN in Hs.
      reads.
      do 2 eexists; split; [reflexivity|]. simpl. rewrite Ht. simpl. tauto.
  - destruct (Z.eqb_spec (proto sm) IPPROTO_UDP) as [Hu|Hu]; simpl.
    + destruct (Z.ltb_spec n UDP_HDR_LEN) as [Hs|Hs]; simpl.
      * do 2 eexists; split; [reflexivity|]. simpl. tauto.
      * unfold UDP_HDR_LEN in Hs.
        reads.
        do 2 eexists; split; [reflexivity|]. simpl. tauto.
    + match goal with |- context [if ?c then ret sm else _] => destruct c end;
        do 2 eexists; (split; [reflexivity|]); simpl; tauto.
Qed.

Lemma length_skipn_Z (pdata : list byte) (k : nat) (n : Z) :
  n <= Z.of_nat (List.length pdata) ->
  n - Z.of_nat k <= Z.of_nat (List.length (skipn k pdata)).
Proof. rewrite length_skipn. lia. Qed.

Lemma length_field (pdata : list byte) (i k : nat) :
  (i + k <= List.length pdata)%nat ->
  List.length (firstn k (skipn i pdata)) = k.
Proof. intros H. rewrite length_firstn, length_skipn. lia. Qed.

(** ** Ranges of the decoded integers *)

Lemma u8_range (b : byte) : 0 <= u8 b < 256.
Proof. unfold u8. pose proof (Byte.to_N_bounded b). lia. Qed.

Lemma lor_range (k a b : Z) :
  0 < k -> 0 <= a < 2 ^ k -> 0 <= b < 2 ^ k -> 0 <= Z.lor a b < 2 ^ k.
Proof.
  intros Hk Ha Hb. split; [apply Z.lor_nonneg; lia|].
  assert (Hl : forall x, 0 <= x < 2 ^ k -> Z.log2 x < k).
  { intros x Hx. destruct (Z.eq_dec x 0) as [-> | Hne]; [simpl; lia|].
    apply Z.log2_lt_pow2; lia. }
  destruct (Z.eq_dec (Z.lor a b) 0) as [-> | Hne]; [lia|].
  assert (0 <= Z.lor a b) by (apply Z.lor_nonneg; lia).
  apply Z.log2_lt_pow2; [lia|].
  rewrite Z.log2_lor by lia.
  pose proof (Hl a Ha). pose proof (Hl b Hb). lia.
Qed.

Lemma ntohs_range (hi lo : byte) : 0 <= ntohs hi lo < 65536.
Proof.
  unfold ntohs. pose proof (u8_range hi). pose proof (u8_range lo).
  change 65536 with (2 ^ 16). apply lor_range; [lia | | lia].
  rewrite Z.shiftl_mul_pow2 by lia. lia.
Qed.

(** ** The IPv6 path *)

Lemma decode_ipv6_ok (E : env) (pdata : list byte) (n : Z) (sm : pktsummary) :
  IPV6_HDR_LEN <= n <= Z.of_nat (List.length pdata) -> n < 2 ^ 32 ->
  decode_ipv6 E pdata n sm =
    decode_ip_payload E (skipn 40 pdata) (n - 40) (ipv6_filled pdata sm).
Proof.
  unfold IPV6_HDR_LEN. intros Hn Hw. unfold decode_ipv6, IPV6_HDR_LEN.
  destruct (Z.ltb_spec n 40); [lia|].
  reads. unfold sub32. rewrite Z.mod_small by lia. reflexivity.
Qed.

(** C3, as the code has it: a buffer whose version nibble is 6 is handed by
    [decode_ip] to the IPv6 path, whatever the caller; when at least the 40
    bytes of the IPv6 header are there, the summary is filled with the two
    16-byte addresses tagged IPv6, the protocol of the next-header field
    and, for a payload-length field of at most 65495 (so that the sum fits
    the 16-bit length), the payload-length field plus 40; it is then handed
    with the bytes past the header to the transport demuxer, which leaves
    addresses and length as they are and replaces the protocol by the
    non-accounting number exactly when it finds the TCP or UDP header cut
    short. *)
Theorem decode_ip_version6 (E : env) (b : byte) (rest : list byte) (n : Z)
    (sm : pktsummary) :
  ip_v b = 6 ->
  let pdata := b :: rest in
  decode_ip E pdata n sm = (emit (EvDecodeIp n) ;;; decode_ipv6 E pdata n sm)
  /\
  (IPV6_HDR_LEN <= n <= Z.of_nat (List.length pdata) -> n < 2 ^ 32 ->
   let filled := ipv6_filled pdata sm in
   decode_ipv6 E pdata n sm =
     decode_ip_payload E (skipn 40 pdata) (n - 40) filled /\
   family (src filled) = IPv6 /\ List.length (ip (src filled)) = 16%nat /\
   family (dst filled) = IPv6 /\ List.length (ip (dst filled)) = 16%nat /\
   ip (src filled) = firstn 16 (skipn 8 pdata) /\
   ip (dst filled) = firstn 16 (skipn 24 pdata) /\
   proto filled = u8 (nth 6 pdata x00) /\
   (ntohs (nth 4 pdata x00) (nth 5 pdata x00) <= 65495 ->
    len filled = ntohs (nth 4 pdata x00) (nth 5 pdata x00) + 40) /\
   exists tr sm',
     decode_ip E pdata n sm = (EvDecodeIp n :: tr, Some sm') /\
     quiet tr = true /\
     src sm' = src filled /\ dst sm' = dst filled /\ len sm' = len filled /\
     proto sm' = (if transport_short (proto filled) (n - 40)
                  then IPPROTO_INVALID E else proto filled)).
Proof.
  intros Hv pdata.
  assert (Hredirect : decode_ip E pdata n sm =
            (emit (EvDecodeIp n) ;;; decode_ipv6 E pdata n sm)).
  { unfold decode_ip. f_equal.
    unfold pdata, byte_at; simpl nth_error.
    change ([], Some b) with (ret b). rewrite bind_ret.
    now rewrite Hv. }
  split; [exact Hredirect|].
  intros Hn Hw filled.
  assert (Hlen : (40 <= List.length pdata)%nat)
    by (unfold IPV6_HDR_LEN in Hn; lia).
  split; [now apply decode_ipv6_ok|].
  do 7 (split; [first [reflexivity
                      | apply (@length_field pdata 8 16); lia
                      | apply (@length_field pdata 24 16); lia]|]).
  split.
  { intros Hle. pose proof (ntohs_range (nth 4 pdata x00) (nth 5 pdata x00)).
    change (len filled)
      with (to_u16 (ntohs (nth 4 pdata x00) (nth 5 pdata x00) + 40)).
    unfold to_u16. apply Z.mod_small. lia. }
  destruct (@decode_ip_payload_frame E (skipn 40 pdata) (n - 40) filled)
    as (tr & sm' & Hrun & Hq & _ & _ & _ & Hl & Hs & Hd & Hp).
  { apply (@length_skipn_Z pdata 40 n); lia. }
  exists tr, sm'. rewrite Hredirect, decode_ipv6_ok by assumption.
  fold filled. rewrite Hrun. rewrite bind_emit. simpl.
  repeat split; assumption.
Qed.

Lemma decode_ip_version6_witness :
  ip_v x60 = 6 /\
  exists sm',
    decode_ip env_linux ipv6_udp 48 pktsummary_zero
      = ([EvDecodeIp 48], Some sm') /\
    family (src sm') = IPv6 /\ proto sm' = 17 /\ len sm' = 48.
Proof.
  split; [reflexivity|].
  destruct (@decode_ip_version6 env_linux x60 (tl ipv6_udp) 48
              pktsummary_zero eq_refl) as [_ H].
  destruct H as (_ & _ & _ & _ & _ & _ & _ & _ & _ & tr & sm' & Hrun & _).
  - vm_compute. split; discriminate.
  - reflexivity.
  - exists sm'.
    assert (Heq : (EvDecodeIp 48 :: tr, Some sm') =
                  decode_ip env_linux ipv6_udp 48 pktsummary_zero)
      by (rewrite <- Hrun; reflexivity).
    vm_compute in Heq. injection Heq as -> ->.
    repeat split; reflexivity.
Defined.

(** C3, as the spec states it, fails on the buffer below, which starts with
    version nibble 6, has 45 bytes, payload length 0xffff and next header
    TCP: the 16-bit length holds 39, not 65535 + 40, and the protocol of the
    returned summary is the non-accounting number, not the next-header
    value 6. *)
Lemma decode_ip_version6_len_proto :
  exists sm',
    decode_ip env_linux ipv6_plen_ffff 45 pktsummary_zero =
      ([EvDecodeIp 45; EvVerbose "tcp: packet too short (%u bytes)" [5]],
       Some sm') /\
    ip_v (nth 0 ipv6_plen_ffff x00) = 6 /\
    ntohs (nth 4 ipv6_plen_ffff x00) (nth 5 ipv6_plen_ffff x00) = 65535 /\
    u8 (nth 6 ipv6_plen_ffff x00) = 6 /\
    len sm' = 39 /\ len sm' <> 65535 + 40 /\
    proto sm' = IPPROTO_INVALID env_linux /\ proto sm' <> 6.
Proof.
  eexists. split; [vm_compute; reflexivity|].
  repeat split; try reflexivity; vm_compute; discriminate.
Qed.

(** ** Short TCP segments *)

(** The run of [decode_ip_payload] on a TCP header that is cut short. *)
Lemma decode_ip_payload_tcp_cut (E : env) (pdata : list byte) (n : Z)
    (sm : pktsummary) :
  proto sm = IPPROTO_TCP -> n < TCP_HDR_LEN ->
  decode_ip_payload E pdata n sm =
    ([EvVerbose "tcp: packet too short (%u bytes)" [n]],
     Some (set_proto sm (IPPROTO_INVALID E))).
Proof.
  intros Hp Hn. unfold decode_ip_payload. rewrite Hp. simpl.
  destruct (Z.ltb_spec n TCP_HDR_LEN); [reflexivity | lia].
Qed.

(** C4: when the protocol is TCP and fewer than 20 bytes follow the IP
    header, [decode_ip_payload] logs the short packet, stores the
    non-accounting protocol number and returns; addresses and length are as
    the network layer left them in [sm], and the ports and flags, zero since
    the summary was zeroed, stay zero. *)
Theorem decode_ip_payload_short_tcp (E : env) (pdata : list byte) (n : Z)
    (sm : pktsummary) :
  proto sm = IPPROTO_TCP -> n < TCP_HDR_LEN ->
  src_port sm = 0 -> dst_port sm = 0 -> tcp_flags sm = 0 ->
  exists sm',
    decode_ip_payload E pdata n sm =
      ([EvVerbose "tcp: packet too short (%u bytes)" [n]], Some sm') /\
    proto sm' = IPPROTO_INVALID E /\
    src sm' = src sm /\ dst sm' = dst sm /\ len sm' = len sm /\
    src_port sm' = 0 /\ dst_port sm' = 0 /\ tcp_flags sm' = 0 /\
    sm' = set_proto sm (IPPROTO_INVALID E).
Proof.
  intros Hp Hn Hs Hd Hf. exists (set_proto sm (IPPROTO_INVALID E)).
  split; [now apply decode_ip_payload_tcp_cut|].
  simpl. repeat split; assumption.
Qed.

(** ** The IPv4 path *)

Lemma decode_ip_v4_ok (E : env) (pdata : list byte) (n : Z) (sm : pktsummary) :
  ip_v (nth 0 pdata x00) = 4 ->
  IP_HDR_LEN <= n <= Z.of_nat (List.length pdata) -> n < 2 ^ 32 ->
  decode_ip E pdata n sm =
    (emit (EvDecodeIp n) ;;;
     decode_ip_payload E (skipn 20 pdata) (n - 20) (ipv4_filled pdata sm)).
Proof.
  unfold IP_HDR_LEN. intros Hv Hn Hw. unfold decode_ip, IP_HDR_LEN.
  f_equal. reads. rewrite Hv. simpl.
  destruct (Z.ltb_spec n 20); [lia|].
  reads. unfold sub32. rewrite Z.mod_small by lia. reflexivity.
Qed.

(** A TCP segment cut short behind an IPv4 header, seen from [decode_ip]:
    the summary keeps the addresses and the total length of the header. *)
Lemma decode_ip_v4_short_tcp (E : env) (pdata : list byte) (n : Z) :
  ip_v (nth 0 pdata x00) = 4 -> u8 (nth 9 pdata x00) = IPPROTO_TCP ->
  IP_HDR_LEN <= n <= Z.of_nat (List.length pdata) ->
  n - IP_HDR_LEN < TCP_HDR_LEN ->
  decode_ip E pdata n pktsummary_zero =
    ([EvDecodeIp n; EvVerbose "tcp: packet too short (%u bytes)" [n - 20]],
     Some (mk_pktsummary 0 mac_zero mac_zero
             (ntohs (nth 2 pdata x00) (nth 3 pdata x00)) (IPPROTO_INVALID E)
             (mk_addr IPv4 (firstn 4 (skipn 12 pdata)))
             (mk_addr IPv4 (firstn 4 (skipn 16 pdata))) 0 0 0)).
Proof.
  unfold IP_HDR_LEN, TCP_HDR_LEN. intros Hv Hp Hn Hs.
  rewrite decode_ip_v4_ok by (unfold IP_HDR_LEN; lia || assumption).
  rewrite decode_ip_payload_tcp_cut;
    [ | exact Hp | unfold TCP_HDR_LEN; lia ].
  rewrite bind_emit. reflexivity.
Qed.

Lemma decode_ip_payload_short_tcp_witness :
  exists sm',
    decode_ip_payload env_linux [x04; xd2; x00; x50; x00] 5
        (ipv4_filled (skipn 14 eth_ipv4_tcp) pktsummary_zero) =
      ([EvVerbose "tcp: packet too short (%u bytes)" [5]], Some sm') /\
    proto sm' = 254 /\
    src sm' = mk_addr IPv4 [x0a; x00; x00; x01] /\
    dst sm' = mk_addr IPv4 [x0a; x00; x00; x02] /\
    len sm' = 40 /\
    src_port sm' = 0 /\ dst_port sm' = 0 /\ tcp_flags sm' = 0 /\
    sm' = set_proto (ipv4_filled (skipn 14 eth_ipv4_tcp) pktsummary_zero) 254.
Proof.
  apply (@decode_ip_payload_short_tcp env_linux [x04; xd2; x00; x50; x00] 5
           (ipv4_filled (skipn 14 eth_ipv4_tcp) pktsummary_zero));
    reflexivity.
Defined.

(** ** Ethernet frames carrying IPv4/TCP *)

(** From here on the fields of a frame stay as [firstn], [skipn] and [nth]
    of the buffer. *)
#[local] Arguments skipn : simpl never.
#[local] Arguments firstn : simpl never.
#[local] Arguments nth : simpl never.





(** ** Silent runs *)

Lemma quiet_app (t1 t2 : list event) :
  quiet (t1 ++ t2) = quiet t1 && quiet t2.
Proof. apply forallb_app. Qed.

Lemma quiet_counts (tr : list event) :
  quiet tr = true ->
  count_acct tr = 0%nat /\ count_ip tr = 0%nat /\
  forall sm, ~ In (EvAcct sm) tr.
Proof.
  induction tr as [|e tr IH]; simpl; [intuition|].
  destruct e; try discriminate. intros H.
  destruct (IH H) as (Ha & Hi & Hn).
  repeat split; try assumption.
  intros sm [Habs | Hin]; [discriminate | exact (Hn sm Hin)].
Qed.

Lemma count_acct_app (t1 t2 : list event) :
  count_acct (t1 ++ t2) = (count_acct t1 + count_acct t2)%nat.
Proof.
  induction t1 as [|e t1 IH]; simpl; [reflexivity|].
  destruct e; simpl; rewrite IH; reflexivity.
Qed.

Lemma count_ip_app (t1 t2 : list event) :
  count_ip (t1 ++ t2) = (count_ip t1 + count_ip t2)%nat.
Proof.
  induction t1 as [|e t1 IH]; simpl; [reflexivity|].
  destruct e; simpl; rewrite IH; reflexivity.
Qed.

Lemma silent_ret A (a : A) : silent (ret a).
Proof. reflexivity. Qed.

Lemma silent_verbosef (fmt : string) (args : list Z) :
  silent (verbosef fmt args).
Proof. reflexivity. Qed.

Lemma silent_byte_at (pdata : list byte) (i : nat) : silent (byte_at pdata i).
Proof. reflexivity. Qed.

Lemma silent_bytes_at (pdata : list byte) (i n : nat) :
  silent (bytes_at pdata i n).
Proof. unfold bytes_at. destruct (_ <=? _)%nat; reflexivity. Qed.

Lemma silent_bind A B (m : M A) (f : A -> M B) :
  silent m -> (forall a, silent (f a)) -> silent (bind m f).
Proof.
  unfold silent, bind. intros Hm Hf.
  destruct (snd m) as [a|]; simpl; [|exact Hm].
  rewrite quiet_app, Hm. apply Hf.
Qed.

Lemma silent_ntohs_at (pdata : list byte) (i : nat) :
  silent (ntohs_at pdata i).
Proof.
  unfold ntohs_at.
  repeat (apply silent_bind; [apply silent_byte_at | intros ?]).
  apply silent_ret.
Qed.

Lemma silent_byte_is (pdata : list byte) (i : nat) (v : Z) :
  silent (byte_is pdata i v).
Proof.
  unfold byte_is. apply silent_bind; [apply silent_byte_at | intros ?].
  apply silent_ret.
Qed.

Lemma silent_andM (a b : M bool) : silent a -> silent b -> silent (andM a b).
Proof.
  intros Ha Hb. unfold andM. apply silent_bind; [exact Ha|].
  intros [|]; [exact Hb | apply silent_ret].
Qed.

Create HintDb runs.
#[local] Hint Resolve silent_ret silent_verbosef silent_byte_at
  silent_bytes_at silent_ntohs_at silent_byte_is silent_andM : runs.

Lemma link_eq_refl (sm : pktsummary) : link_eq sm sm.
Proof. repeat split. Qed.

Lemma keeps_ret (base sm : pktsummary) : link_eq sm base -> keeps base (ret sm).
Proof.
  intros H. split; [reflexivity|]. simpl. now intros sm' [= <-].
Qed.

Lemma keeps_bind A (base : pktsummary) (m : M A) (f : A -> M pktsummary) :
  silent m -> (forall a, keeps base (f a)) -> keeps base (bind m f).
Proof.
  intros Hm Hf. split.
  - apply silent_bind; [exact Hm | intros a; apply Hf].
  - unfold bind. destruct (snd m) as [a|]; simpl; [|discriminate].
    apply Hf.
Qed.

(** Discharges [keeps] goals for code made of reads, diagnostics and
    conditionals that ends in a returned summary. *)
Ltac keeps_steps :=
  repeat first
    [ apply keeps_ret; repeat split; simpl; (assumption || reflexivity)
    | apply keeps_bind; [auto with runs | intros ?]
    | match goal with
      | |- keeps _ (if ?c then _ else _) => destruct c
      end ].

Lemma keeps_decode_ip_payload (E : env) (base : pktsummary)
    (pdata : list byte) (n : Z) (sm : pktsummary) :
  link_eq sm base -> keeps base (decode_ip_payload E pdata n sm).
Proof.
  intros (Ht & Hs & Hd). unfold decode_ip_payload. cbv zeta. keeps_steps.
Qed.

Lemma keeps_decode_ipv6 (E : env) (base : pktsummary)
    (pdata : list byte) (n : Z) (sm : pktsummary) :
  link_eq sm base -> keeps base (decode_ipv6 E pdata n sm).
Proof.
  intros (Ht & Hs & Hd). unfold decode_ipv6. cbv zeta. keeps_steps.
  apply keeps_decode_ip_payload. repeat split; assumption.
Qed.

(** [decode_ip] records its entry and then behaves as a silent run that
    keeps the link-layer fields: it never calls the sink itself. *)
Lemma decode_ip_shape (E : env) (pdata : list byte) (n : Z) (sm : pktsummary) :
  exists body,
    decode_ip E pdata n sm = (EvDecodeIp n :: fst body, snd body) /\
    keeps sm body.
Proof.
  unfold decode_ip. rewrite bind_emit. eexists. split; [reflexivity|].
  cbv zeta. keeps_steps;
    first [ apply keeps_decode_ipv6 | apply keeps_decode_ip_payload ];
    repeat split; reflexivity.
Qed.

(** ** Runs of the link-layer decoders *)

Lemma link_run_silent (Q : pktsummary -> Prop) (m : M pktsummary) :
  silent m -> link_run Q m.
Proof.
  intros H. destruct (quiet_counts _ H) as (Ha & Hi & Hn).
  unfold link_run. rewrite Ha, Hi. repeat split; try lia.
  - exfalso. eapply Hn; eassumption.
  - exfalso. eapply Hn; eassumption.
  - destruct (snd m); reflexivity.
Qed.

Lemma link_run_bind A (Q : pktsummary -> Prop) (m : M A)
    (f : A -> M pktsummary) :
  silent m -> (forall a, link_run Q (f a)) -> link_run Q (bind m f).
Proof.
  intros Hm Hf. destruct (quiet_counts _ Hm) as (Ha & Hi & Hn).
  unfold bind. destruct (snd m) as [a|] eqn:Hr.
  - destruct (Hf a) as (H1 & H2 & H3 & H4).
    unfold link_run; simpl.
    rewrite count_acct_app, count_ip_app, Ha, Hi. simpl.
    repeat split; try assumption.
    + apply in_app_or in H as [H | H]; [exfalso; eapply Hn; eassumption|].
      now apply H3.
    + apply in_app_or in H as [H | H]; [exfalso; eapply Hn; eassumption|].
      now apply H3.
  - apply link_run_silent. exact Hm.
Qed.

Lemma link_run_bytes_at (Q : pktsummary -> Prop) (pdata : list byte)
    (i n : nat) (f : list byte -> M pktsummary) :
  link_run Q (f (firstn n (skipn i pdata))) ->
  link_run Q (bind (bytes_at pdata i n) f).
Proof.
  intros H. unfold bytes_at. destruct (_ <=? _)%nat.
  - now rewrite bind_ret.
  - apply link_run_silent. reflexivity.
Qed.

(** The pattern of every dispatch: [decode_ip], then one call of the sink
    on the summary (after [g], which stores the capture time where the
    decoder does that last). *)
Lemma link_run_dispatch (E : env) (Q : pktsummary -> Prop)
    (g : pktsummary -> pktsummary) (pdata : list byte) (n : Z)
    (sm : pktsummary) :
  (forall sm', link_eq sm' sm -> Q (g sm')) ->
  link_run Q (bind (decode_ip E pdata n sm)
                   (fun sm' => acct_for (g sm') ;;; ret (g sm'))).
Proof.
  intros HQ.
  destruct (decode_ip_shape E pdata n sm) as (body & -> & Hsil & Hkeep).
  destruct (quiet_counts _ Hsil) as (Ha & Hi & Hn).
  unfold bind; simpl. destruct (snd body) as [sm'|] eqn:Hr.
  - unfold link_run; simpl.
    rewrite count_acct_app, count_ip_app, Ha, Hi. simpl.
    assert (Hin : forall x, In (EvAcct x) (fst body ++ [EvAcct (g sm')]) ->
                            x = g sm').
    { intros x H. apply in_app_or in H as [H | H].
      - exfalso. eapply Hn; eassumption.
      - destruct H as [[= <-] | []]. reflexivity. }
    repeat split; try lia.
    + destruct H as [H | H]; [discriminate|].
      rewrite (Hin _ H). apply HQ, Hkeep. reflexivity.
    + destruct H as [H | H]; [discriminate|]. now rewrite (Hin _ H).
  - unfold link_run; simpl. rewrite Ha, Hi.
    repeat split; try lia;
      (destruct H as [H | H]; [discriminate | exfalso; eapply Hn; eassumption]).
Qed.

Ltac silent_steps :=
  repeat first
    [ solve [auto with runs]
    | apply silent_bind; [ | intros ?]
    | match goal with
      | |- silent (if ?c then _ else _) => destruct c
      end ].

(** Walks through the body of a link-layer decoder. *)
Ltac link_steps :=
  repeat first
    [ apply link_run_dispatch; intros ? (? & ? & ?)
    | apply link_run_bytes_at
    | apply link_run_bind; [solve [silent_steps] | intros ?]
    | match goal with
      | |- link_run _ (if ?c then _ else _) => destruct c
      end
    | apply link_run_silent; solve [silent_steps] ].

Lemma link_run_pppoe_real (E : env) (Q : pktsummary -> Prop)
    (pdata : list byte) (n : Z) (sm : pktsummary) :
  (forall sm', link_eq sm' sm -> Q sm') ->
  link_run Q (decode_pppoe_real E pdata n sm).
Proof.
  intros HQ. unfold decode_pppoe_real. cbv zeta.
  link_steps. apply HQ. repeat split; assumption.
Qed.

(** Ethernet: whatever reaches the sink carries the MAC addresses of the
    frame. *)
Lemma link_run_ether (E : env) (pheader : pcap_pkthdr) (pdata : list byte) :
  link_run (fun sm => src_mac sm = firstn 6 (skipn 6 pdata) /\
                      dst_mac sm = firstn 6 pdata)
           (decode_ether E pheader pdata).
Proof.
  unfold decode_ether. cbv zeta. link_steps.
  - simpl in *. rewrite skipn_O in *. split; congruence.
  - apply link_run_pppoe_real. intros sm' (_ & Hs & Hd).
    simpl in *. rewrite skipn_O in *. split; congruence.
Qed.

(** The other link types: whatever reaches the sink has zero MAC
    addresses. *)
Lemma link_run_loop (E : env) (pheader : pcap_pkthdr) (pdata : list byte) :
  link_run (fun sm => src_mac sm = mac_zero /\ dst_mac sm = mac_zero)
           (decode_loop E pheader pdata).
Proof.
  unfold decode_loop. cbv zeta. link_steps; simpl in *; split; congruence.
Qed.

Lemma link_run_ppp (E : env) (pheader : pcap_pkthdr) (pdata : list byte) :
  link_run (fun sm => src_mac sm = mac_zero /\ dst_mac sm = mac_zero)
           (decode_ppp E pheader pdata).
Proof.
  unfold decode_ppp. cbv zeta. link_steps; simpl in *; split; congruence.
Qed.

Lemma link_run_pppoe (E : env) (pheader : pcap_pkthdr) (pdata : list byte) :
  link_run (fun sm => src_mac sm = mac_zero /\ dst_mac sm = mac_zero)
           (decode_pppoe E pheader pdata).
Proof.
  unfold decode_pppoe. cbv zeta. apply link_run_pppoe_real.
  intros sm' (_ & Hs & Hd). simpl in *. split; congruence.
Qed.

Lemma link_run_linux_sll (E : env) (pheader : pcap_pkthdr)
    (pdata : list byte) :
  link_run (fun sm => src_mac sm = mac_zero /\ dst_mac sm = mac_zero)
           (decode_linux_sll E pheader pdata).
Proof.
  unfold decode_linux_sll. cbv zeta.
  link_steps; simpl in *; split; congruence.
Qed.

Lemma link_run_raw (E : env) (pheader : pcap_pkthdr) (pdata : list byte) :
  link_run (fun sm => src_mac sm = mac_zero /\ dst_mac sm = mac_zero)
           (decode_raw E pheader pdata).
Proof.
  unfold decode_raw. cbv zeta. link_steps; simpl in *; split; congruence.
Qed.


(** Every handler of the table runs as [link_run] describes, and what it
    hands to the sink has the MAC addresses that [mac_fields] gives for the
    link type. *)
Lemma link_run_handlers (E : env) (lh : linkhdr) (h : pcap_handler)
    (pheader : pcap_pkthdr) (pdata : list byte) :
  registered E lh -> handler lh = Some h ->
  link_run (mac_fields (linktype lh) pdata) (h pheader pdata).
Proof.
  intros [Hin _] Hh.
  table_cases E Hin; simpl in Hh; try discriminate; injection Hh as <-;
    unfold mac_fields; simpl;
    first [ apply link_run_ether | apply link_run_loop | apply link_run_ppp
          | apply link_run_pppoe | apply link_run_linux_sll
          | apply link_run_raw ].
Qed.

(** ** Runs that complete *)

(** With at least one byte to read, [decode_ip] completes. *)
Lemma decode_ip_no_fault (E : env) (pdata : list byte) (n : Z)
    (sm : pktsummary) :
  1 <= n <= Z.of_nat (List.length pdata) -> n < 2 ^ 32 ->
  snd (decode_ip E pdata n sm) <> None.
Proof.
  intros Hn Hw.
  assert (Hpay : forall k sm0, (k <= 40)%nat -> Z.of_nat k <= n ->
            snd (decode_ip_payload E (skipn k pdata) (n - Z.of_nat k) sm0)
              <> None).
  { intros k sm0 Hk Hkn.
    destruct (@decode_ip_payload_frame E (skipn k pdata) (n - Z.of_nat k) sm0)
      as (tr & sm' & -> & _); [apply length_skipn_Z; lia | discriminate]. }
  unfold decode_ip. rewrite bind_emit. simpl snd. reads.
  destruct (ip_v (nth 0 pdata x00) =? 6).
  - destruct (Z.ltb_spec n IPV6_HDR_LEN) as [Hs|Hs].
    + unfold decode_ipv6. destruct (Z.ltb_spec n IPV6_HDR_LEN); [|lia].
      discriminate.
    + rewrite decode_ipv6_ok by lia. apply (Hpay 40%nat); [lia|].
      unfold IPV6_HDR_LEN in Hs. lia.
  - destruct (Z.ltb_spec n IP_HDR_LEN) as [Hs|Hs]; [discriminate|].
    destruct (negb _); [discriminate|].
    unfold IP_HDR_LEN in Hs. reads.
    unfold sub32, IP_HDR_LEN. rewrite Z.mod_small by lia.
    apply (Hpay 20%nat); lia.
Qed.

Lemma completes_result A (m : M A) : snd m <> None -> completes m.
Proof. intros H _. exact H. Qed.

Lemma completes_dispatch (E : env) (g : pktsummary -> pktsummary)
    (pdata : list byte) (n : Z) (sm : pktsummary) :
  n <= Z.of_nat (List.length pdata) -> n < 2 ^ 32 ->
  completes (bind (decode_ip E pdata n sm)
                  (fun sm' => acct_for (g sm') ;;; ret (g sm'))).
Proof.
  intros Hn Hw Hall.
  assert (H1 : 1 <= n).
  { apply Hall. destruct (decode_ip_shape E pdata n sm) as (body & Hb & _).
    unfold bind. rewrite Hb. simpl. destruct (snd body); simpl; auto. }
  pose proof (@decode_ip_no_fault E pdata n sm (conj H1 Hn) Hw) as Hok.
  unfold bind. destruct (snd (decode_ip E pdata n sm)); [discriminate|].
  contradiction.
Qed.

Lemma sub32_lt (a b : Z) : sub32 a b < 2 ^ 32.
Proof. unfold sub32. apply Z.mod_pos_bound. lia. Qed.

Lemma sub32_nonneg (a b : Z) : 0 <= sub32 a b.
Proof. unfold sub32. apply Z.mod_pos_bound. lia. Qed.

Lemma sub32_le_skipn (a b : Z) (pdata : list byte) :
  0 <= b <= a -> a < 2 ^ 32 -> a <= Z.of_nat (List.length pdata) ->
  sub32 a b <= Z.of_nat (List.length (skipn (Z.to_nat b) pdata)).
Proof.
  intros Hb Ha Hn. unfold sub32. rewrite Z.mod_small by lia.
  rewrite length_skipn. lia.
Qed.

(** Walks through the body of a link-layer decoder whose reads are inside
    the buffer. *)
Ltac completes_steps :=
  unfold andM; reads;
  repeat first
    [ apply completes_dispatch;
      [ first [apply sub32_le_skipn; lia | lia]
      | first [apply sub32_lt | lia] ]
    | match goal with
      | |- completes (if ?c then _ else _) => destruct c; reads
      | |- completes (bind (if ?c then _ else _) _) => destruct c; reads
      end
    | apply completes_result; discriminate ].

Lemma completes_pppoe_real (E : env) (pdata : list byte) (n : Z)
    (sm : pktsummary) :
  0 <= n < 2 ^ 32 -> n <= Z.of_nat (List.length pdata) ->
  completes (decode_pppoe_real E pdata n sm).
Proof.
  intros Hw Hn. unfold decode_pppoe_real, PPPOE_HDR_LEN. cbv zeta.
  destruct (Z.ltb_spec n 8); [apply completes_result; discriminate|].
  completes_steps.
Qed.

Lemma completes_handlers (E : env) (lh : linkhdr) (h : pcap_handler)
    (pheader : pcap_pkthdr) (pdata : list byte) :
  registered E lh -> handler lh = Some h ->
  0 <= caplen pheader < 2 ^ 32 ->
  caplen pheader <= Z.of_nat (List.length pdata) ->
  completes (h pheader pdata).
Proof.
  intros [Hin _] Hh Hw Hn.
  table_cases E Hin; simpl in Hh; try discriminate; injection Hh as <-;
    unfold decode_ether, decode_loop, decode_ppp, decode_pppoe,
      decode_linux_sll, decode_raw, ETHER_HDR_LEN, NULL_HDR_LEN,
      PPP_HDR_LEN, PPPOE_HDR_LEN, SLL_HDR_LEN;
    cbv zeta;
    try (apply completes_pppoe_real; assumption);
    try match goal with
        | |- completes (if ?a <? ?b then _ else _) =>
            destruct (Z.ltb_spec a b);
              [apply completes_result; discriminate|]
        end;
    completes_steps;
    (apply completes_pppoe_real;
       [ split; [apply sub32_nonneg | apply sub32_lt]
       | apply sub32_le_skipn; lia ]).
Qed.

(** ** The sink after a packet that the upper layers reject *)

(** The sink is called once as well when the IP version is unknown, and
    when the TCP header is cut short and the protocol has been replaced by
    the non-accounting number. *)
Example ether_unknown_version_accounted :
  exists sm,
    decode_ether env_linux (mk_pkthdr 1000 54) eth_ipv5 =
      ([EvDecodeIp 40; EvVerbose "ip: version %d (expecting 4 or 6)" [5];
        EvAcct sm], Some sm) /\
    proto sm = 0 /\ src sm = addr_zero /\ time sm = 1000.
Proof. eexists. split; [vm_compute; reflexivity|]. repeat split. Qed.

Example ether_short_tcp_accounted :
  exists sm,
    decode_ether env_linux (mk_pkthdr 1000 40) (firstn 40 eth_ipv4_tcp) =
      ([EvDecodeIp 26; EvVerbose "tcp: packet too short (%u bytes)" [6];
        EvAcct sm], Some sm) /\
    proto sm = IPPROTO_INVALID env_linux /\
    src sm = mk_addr IPv4 [x0a; x00; x00; x01] /\ len sm = 40.
Proof. eexists. split; [vm_compute; reflexivity|]. repeat split. Qed.

(** ** MAC addresses *)

(** C8, as the code has it: the summary that reaches the sink carries the
    source and destination MAC of the frame for Ethernet (bytes 6-11 and
    0-5), also when [decode_ether] forwards a PPPoE session frame; for every
    other link type of the table, Linux cooked capture included, both
    fields are zero. *)
Theorem mac_fields_by_link_type (E : env) (lh : linkhdr) (h : pcap_handler)
    (pheader : pcap_pkthdr) (pdata : list byte) (sm : pktsummary) :
  registered E lh -> handler lh = Some h ->
  In (EvAcct sm) (fst (h pheader pdata)) ->
  if linktype lh =? DLT_EN10MB
  then src_mac sm = firstn 6 (skipn 6 pdata) /\ dst_mac sm = firstn 6 pdata
  else src_mac sm = mac_zero /\ dst_mac sm = mac_zero.
Proof.
  intros Hr Hh Hin.
  destruct (link_run_handlers pheader pdata Hr Hh) as (_ & _ & H3 & _).
  exact (proj1 (H3 _ Hin)).
Qed.

Lemma mac_fields_by_link_type_witness :
  exists sm,
    In (EvAcct sm)
       (fst (decode_linux_sll env_linux (mk_pkthdr 1000 56) sll_ipv4_tcp)) /\
    src_mac sm = mac_zero /\ dst_mac sm = mac_zero.
Proof.
  eexists. split; [vm_compute; right; left; reflexivity|].
  match goal with
  | |- src_mac ?sm = _ /\ _ =>
      apply (@mac_fields_by_link_type env_linux
               (mk_linkhdr DLT_LINUX_SLL SLL_HDR_LEN
                  (Some (decode_linux_sll env_linux)))
               (decode_linux_sll env_linux) (mk_pkthdr 1000 56)
               sll_ipv4_tcp sm)
  end.
  - split; [simpl; auto 10 | discriminate].
  - reflexivity.
  - vm_compute. right; left; reflexivity.
Defined.

(** C8, as the spec states it, fails for Linux cooked capture: the
    frame below has the link address 66:77:88:99:aa:bb in its header, and
    the summary handed to the sink has zero MAC addresses. *)
Lemma linux_sll_macs_stay_zero :
  exists sm,
    decode_linux_sll env_linux (mk_pkthdr 1000 56) sll_ipv4_tcp =
      ([EvDecodeIp 40; EvAcct sm], Some sm) /\
    firstn 6 (skipn 6 sll_ipv4_tcp) = [x66; x77; x88; x99; xaa; xbb] /\
    src_mac sm = mac_zero /\ dst_mac sm = mac_zero /\
    src_mac sm <> firstn 6 (skipn 6 sll_ipv4_tcp).
Proof.
  eexists. split; [vm_compute; reflexivity|].
  repeat split; try reflexivity. vm_compute. discriminate.
Qed.

(** ** PPP *)

(** From 8 captured bytes on, [decode_ppp] does what its header layout says:
    protocol 0x0021 goes to the IP demuxer and the sink, anything else is
    logged as a non-IP PPP packet. *)
Lemma decode_ppp_from_8 (E : env) (pheader : pcap_pkthdr) (pdata : list byte) :
  PPPOE_HDR_LEN <= caplen pheader <= Z.of_nat (List.length pdata) ->
  decode_ppp E pheader pdata =
    if (u8 (nth 2 pdata x00) =? 0x00) && (u8 (nth 3 pdata x00) =? 0x21)
    then
      sm <- decode_ip E (skipn 4 pdata) (sub32 (caplen pheader) 4)
                      pktsummary_zero ;;
      acct_for (set_time sm (ts_tv_sec pheader)) ;;;
      ret (set_time sm (ts_tv_sec pheader))
    else
      ([EvVerbose "non-IP PPP packet; ignoring." []], Some pktsummary_zero).
Proof.
  unfold PPPOE_HDR_LEN. intros H. unfold decode_ppp, PPPOE_HDR_LEN.
  destruct (Z.ltb_spec (caplen pheader) 8); [lia|].
  unfold andM. reads.
  destruct (u8 (nth 2 pdata x00) =? 0); simpl; reads; simpl.
  - destruct (u8 (nth 3 pdata x00) =? 33); reflexivity.
  - reflexivity.
Qed.

(** C7 fails on the code for captured lengths from [PPP_HDR_LEN] to
    [PPPOE_HDR_LEN] - 1: [decode_ppp] compares the captured length with the
    PPPoE header length, so such a frame is reported as too short and
    dropped whatever its protocol field says; the IP demuxer is not entered
    and the sink is not called. *)
Theorem decode_ppp_checks_pppoe_length (E : env) (pheader : pcap_pkthdr)
    (pdata : list byte) :
  PPP_HDR_LEN <= caplen pheader < PPPOE_HDR_LEN ->
  decode_ppp E pheader pdata =
    ([EvVerbose "ppp: packet too short (%u bytes)" [caplen pheader]],
     Some pktsummary_zero).
Proof.
  unfold PPP_HDR_LEN, PPPOE_HDR_LEN. intros H.
  unfold decode_ppp, PPPOE_HDR_LEN.
  destruct (Z.ltb_spec (caplen pheader) 8); [reflexivity | lia].
Qed.

Lemma decode_ppp_checks_pppoe_length_witness :
  PPP_HDR_LEN <= 7 <= Z.of_nat (List.length ppp_ip_7) /\
  u8 (nth 2 ppp_ip_7 x00) = 0x00 /\ u8 (nth 3 ppp_ip_7 x00) = 0x21 /\
  decode_ppp env_linux (mk_pkthdr 1000 7) ppp_ip_7 =
    ([EvVerbose "ppp: packet too short (%u bytes)" [7]],
     Some pktsummary_zero).
Proof.
  split; [vm_compute; split; discriminate|].
  split; [reflexivity|]. split; [reflexivity|].
  apply (@decode_ppp_checks_pppoe_length env_linux (mk_pkthdr 1000 7)
           ppp_ip_7).
  vm_compute. split; [discriminate | reflexivity].
Defined.

(** ** The first read of [decode_ip] *)

(** C9: [decode_ip] reads the version nibble at offset 0 before it compares
    [len] with anything, so its reads stay inside every buffer of at least
    [len] bytes exactly when [len] is at least 1; [decode_raw] passes the
    captured length on unchecked, so a capture of length 0 enters
    [decode_ip] with [len] 0, where the read at offset 0 is outside the
    buffer: the run stops there, before any diagnostic. *)
Theorem decode_ip_needs_one_byte (E : env) (sm : pktsummary) :
  (forall n, 0 <= n < 2 ^ 32 ->
     ((forall pdata, n <= Z.of_nat (List.length pdata) ->
                     snd (decode_ip E pdata n sm) <> None)
      <-> 1 <= n)) /\
  decode_ip E [] 0 sm = ([EvDecodeIp 0], None) /\
  (forall pheader pdata,
     decode_raw E pheader pdata =
       (sm' <- decode_ip E pdata (caplen pheader) pktsummary_zero ;;
        acct_for (set_time sm' (ts_tv_sec pheader)) ;;;
        ret (set_time sm' (ts_tv_sec pheader)))) /\
  (forall ts, decode_raw E (mk_pkthdr ts 0) [] = ([EvDecodeIp 0], None)).
Proof.
  repeat split; try reflexivity.
  - intros Hall. destruct (Z.le_gt_cases 1 n) as [Hle|Hgt]; [exact Hle|].
    exfalso. apply (Hall []); [simpl; lia|].
    replace n with 0 by lia. reflexivity.
  - intros Hle pdata Hbuf. apply decode_ip_no_fault; lia.
Qed.

Lemma decode_ip_needs_one_byte_witness :
  snd (decode_ip env_linux [x45] 1 pktsummary_zero) <> None /\
  decode_raw env_linux (mk_pkthdr 1000 0) [] = ([EvDecodeIp 0], None).
Proof.
  destruct (decode_ip_needs_one_byte env_linux pktsummary_zero)
    as (Hiff & _ & _ & Hraw).
  split; [|apply Hraw].
  apply (proj2 (Hiff 1 (conj (Z.lt_le_incl _ _ Z.lt_0_1) eq_refl))).
  - apply Z.le_refl.
  - apply Z.le_refl.
Defined.

(** * Further properties *)

(** ** Lookups in the link-type table *)

Lemma getlinkhdr_row (E : env) (lh : linkhdr) :
  registered E lh -> getlinkhdr E (linktype lh) = Some lh.
Proof.
  intros [Hin Hs]. table_cases E Hin; try reflexivity.
  all: exfalso; apply Hs; reflexivity.
Qed.

(** Every row in front of the sentinel is found under its own link type:
    no row is shadowed by an earlier one. *)
Theorem getlinkhdr_finds_registered (E : env) (lh : linkhdr) :
  registered E lh -> getlinkhdr E (linktype lh) = Some lh.
Proof. exact (@getlinkhdr_row E lh). Qed.

Lemma getlinkhdr_finds_registered_witness :
  getlinkhdr env_linux DLT_LINUX_SLL =
    Some (mk_linkhdr DLT_LINUX_SLL SLL_HDR_LEN
            (Some (decode_linux_sll env_linux))).
Proof.
  apply (@getlinkhdr_finds_registered env_linux
           (mk_linkhdr DLT_LINUX_SLL SLL_HDR_LEN
              (Some (decode_linux_sll env_linux)))).
  split; [simpl; auto 10 | discriminate].
Defined.

(** The lookup returns NULL exactly for the link types that no row in front
    of the sentinel has; the sentinel's own -1 is never found. *)
Theorem getlinkhdr_unknown (E : env) (lt : Z) :
  (getlinkhdr E lt = None <->
   forall lh, registered E lh -> linktype lh <> lt) /\
  getlinkhdr E (-1) = None.
Proof.
  assert (Hiff : forall k, getlinkhdr E k = None <->
                   forall lh, registered E lh -> linktype lh <> k).
  { intros k. split.
    - intros Hnone lh Hr Heq. subst k.
      rewrite (getlinkhdr_row Hr) in Hnone. discriminate.
    - intros Hall. destruct (getlinkhdr E k) as [lh|] eqn:Hk; [|reflexivity].
      apply getlinkhdr_registered in Hk as [Hr Heq].
      exfalso. exact (Hall lh Hr Heq). }
  split; [apply Hiff|].
  apply Hiff. intros lh [_ Hs]. exact Hs.
Qed.

(** ** Ranges of the decoded integers, continued *)

Lemma tcp_flags_mask_range (v : Z) :
  0 <= Z.land v tcp_flags_mask <= 63.
Proof.
  change tcp_flags_mask with (Z.ones 6). rewrite Z.land_ones by lia.
  pose proof (Z.mod_pos_bound v (2 ^ 6)). lia.
Qed.

(** ** The transport demuxer on UDP and on the other protocols *)

Lemma decode_ip_payload_udp_ok (E : env) (pdata : list byte) (n : Z)
    (sm : pktsummary) :
  proto sm = IPPROTO_UDP ->
  UDP_HDR_LEN <= n <= Z.of_nat (List.length pdata) ->
  decode_ip_payload E pdata n sm =
    ret (set_dst_port
           (set_src_port sm (ntohs (nth 0 pdata x00) (nth 1 pdata x00)))
           (ntohs (nth 2 pdata x00) (nth 3 pdata x00))).
Proof.
  unfold UDP_HDR_LEN. intros Hp Hn. unfold decode_ip_payload.
  rewrite Hp. simpl. destruct (Z.ltb_spec n UDP_HDR_LEN) as [H|H];
    unfold UDP_HDR_LEN in H; [lia|].
  reads. reflexivity.
Qed.

(** A UDP header of at least 8 bytes: the two ports are read in network
    order from offsets 0-1 and 2-3 and fit 16 bits; nothing is logged and
    every other field of the summary, the TCP flags included, is as it
    was. *)
Theorem decode_ip_payload_udp (E : env) (pdata : list byte) (n : Z)
    (sm : pktsummary) :
  proto sm = IPPROTO_UDP ->
  UDP_HDR_LEN <= n <= Z.of_nat (List.length pdata) ->
  exists sm',
    decode_ip_payload E pdata n sm = ([], Some sm') /\
    src_port sm' = ntohs (nth 0 pdata x00) (nth 1 pdata x00) /\
    dst_port sm' = ntohs (nth 2 pdata x00) (nth 3 pdata x00) /\
    0 <= src_port sm' < 65536 /\ 0 <= dst_port sm' < 65536 /\
    proto sm' = IPPROTO_UDP /\ tcp_flags sm' = tcp_flags sm /\
    src sm' = src sm /\ dst sm' = dst sm /\ len sm' = len sm /\
    link_eq sm' sm.
Proof.
  intros Hp Hn. rewrite decode_ip_payload_udp_ok by assumption.
  eexists. split; [reflexivity|]. simpl.
  repeat split; try assumption; apply ntohs_range.
Qed.

Lemma decode_ip_payload_udp_witness :
  exists sm',
    decode_ip_payload env_linux (skipn 40 ipv6_udp) 8
        (ipv6_filled ipv6_udp pktsummary_zero) = ([], Some sm') /\
    src_port sm' = 53 /\ dst_port sm' = 1234 /\ tcp_flags sm' = 0.
Proof.
  destruct (@decode_ip_payload_udp env_linux (skipn 40 ipv6_udp) 8
              (ipv6_filled ipv6_udp pktsummary_zero))
    as (sm' & Hrun & Hs & Hd & _ & _ & _ & Hf & _).
  - reflexivity.
  - vm_compute. split; discriminate.
  - exists sm'. repeat split; assumption.
Defined.

(** A UDP header cut short, as for TCP: the short packet is logged, the
    protocol becomes the non-accounting number, and nothing else of the
    summary changes; the payload is not read. *)
Theorem decode_ip_payload_short_udp (E : env) (pdata : list byte) (n : Z)
    (sm : pktsummary) :
  proto sm = IPPROTO_UDP -> n < UDP_HDR_LEN ->
  decode_ip_payload E pdata n sm =
    ([EvVerbose "udp: packet too short (%u bytes)" [n]],
     Some (set_proto sm (IPPROTO_INVALID E))) /\
  src_port (set_proto sm (IPPROTO_INVALID E)) = src_port sm /\
  dst_port (set_proto sm (IPPROTO_INVALID E)) = dst_port sm /\
  src (set_proto sm (IPPROTO_INVALID E)) = src sm /\
  dst (set_proto sm (IPPROTO_INVALID E)) = dst sm /\
  len (set_proto sm (IPPROTO_INVALID E)) = len sm.
Proof.
  intros Hp Hn. unfold decode_ip_payload. rewrite Hp. simpl.
  destruct (Z.ltb_spec n UDP_HDR_LEN); [|lia].
  repeat split.
Qed.

Lemma decode_ip_payload_short_udp_witness :
  decode_ip_payload env_linux [x00; x35; x04] 3
      (ipv6_filled ipv6_udp pktsummary_zero) =
    ([EvVerbose "udp: packet too short (%u bytes)" [3]],
     Some (set_proto (ipv6_filled ipv6_udp pktsummary_zero) 254)).
Proof.
  apply (@decode_ip_payload_short_udp env_linux [x00; x35; x04] 3
           (ipv6_filled ipv6_udp pktsummary_zero)); reflexivity.
Defined.

(** Any protocol other than TCP and UDP: the payload is not read (so the
    call cannot fault, whatever the buffer and the length), the summary
    comes back unchanged, and there is one "unknown protocol" diagnostic
    unless the protocol is ICMP, ICMPv6, AH, ESP or OSPF. *)
Theorem decode_ip_payload_other (E : env) (pdata : list byte) (n : Z)
    (sm : pktsummary) :
  proto sm <> IPPROTO_TCP -> proto sm <> IPPROTO_UDP ->
  decode_ip_payload E pdata n sm =
    (if opaque_proto (proto sm) then []
     else [EvVerbose "ip: unknown protocol %d" [proto sm]],
     Some sm).
Proof.
  intros Ht Hu. unfold decode_ip_payload, opaque_proto.
  destruct (Z.eqb_spec (proto sm) IPPROTO_TCP); [contradiction|].
  destruct (Z.eqb_spec (proto sm) IPPROTO_UDP); [contradiction|].
  destruct (_ || _); reflexivity.
Qed.

Lemma decode_ip_payload_other_witness :
  decode_ip_payload env_linux [] 0 (set_proto pktsummary_zero 47) =
    ([EvVerbose "ip: unknown protocol %d" [47]],
     Some (set_proto pktsummary_zero 47)) /\
  decode_ip_payload env_linux [] 0 (set_proto pktsummary_zero 1) =
    ([], Some (set_proto pktsummary_zero 1)).
Proof.
  split.
  - apply (@decode_ip_payload_other env_linux [] 0
             (set_proto pktsummary_zero 47)); discriminate.
  - apply (@decode_ip_payload_other env_linux [] 0
             (set_proto pktsummary_zero 1)); discriminate.
Defined.

(** ** What the network layer rejects *)

(** A buffer that does not start with version nibble 6: with fewer than 20
    bytes it is logged as too short, whatever its version; with 20 bytes or
    more and a version other than 4 the version is logged.  Either way only
    the first byte is read and the summary comes back unchanged. *)
Theorem decode_ip_rejects (E : env) (b : byte) (rest : list byte) (n : Z)
    (sm : pktsummary) :
  ip_v b <> 6 ->
  (n < IP_HDR_LEN ->
   decode_ip E (b :: rest) n sm =
     ([EvDecodeIp n; EvVerbose "ip: packet too short (%u bytes)" [n]],
      Some sm)) /\
  (IP_HDR_LEN <= n -> ip_v b <> 4 ->
   decode_ip E (b :: rest) n sm =
     ([EvDecodeIp n;
       EvVerbose "ip: version %d (expecting 4 or 6)" [ip_v b]], Some sm)).
Proof.
  intros H6. unfold decode_ip, byte_at. simpl nth_error.
  change ([], Some b) with (ret b). rewrite bind_emit, bind_ret.
  destruct (Z.eqb_spec (ip_v b) 6); [contradiction|].
  split.
  - intros Hn. destruct (Z.ltb_spec n IP_HDR_LEN); [reflexivity | lia].
  - intros Hn H4. destruct (Z.ltb_spec n IP_HDR_LEN); [lia|].
    destruct (Z.eqb_spec (ip_v b) 4); [contradiction | reflexivity].
Qed.

Lemma decode_ip_rejects_witness :
  decode_ip env_linux [x45; x00; x00] 3 pktsummary_zero =
    ([EvDecodeIp 3; EvVerbose "ip: packet too short (%u bytes)" [3]],
     Some pktsummary_zero) /\
  decode_ip env_linux (skipn 14 eth_ipv5) 40 pktsummary_zero =
    ([EvDecodeIp 40; EvVerbose "ip: version %d (expecting 4 or 6)" [5]],
     Some pktsummary_zero).
Proof.
  split.
  - apply (@decode_ip_rejects env_linux x45 [x00; x00] 3 pktsummary_zero);
      [discriminate | reflexivity].
  - apply (@decode_ip_rejects env_linux x55 (skipn 15 eth_ipv5) 40
             pktsummary_zero); discriminate.
Defined.

(** A buffer that starts with version nibble 6 and has fewer than 40 bytes
    is logged as a short IPv6 packet and dropped, also when its 20 bytes or
    more would hold an IPv4 header: the summary comes back unchanged. *)
Theorem decode_ip_short_ipv6 (E : env) (b : byte) (rest : list byte) (n : Z)
    (sm : pktsummary) :
  ip_v b = 6 -> n < IPV6_HDR_LEN ->
  decode_ip E (b :: rest) n sm =
    ([EvDecodeIp n; EvVerbose "ipv6: packet too short (%u bytes)" [n]],
     Some sm).
Proof.
  intros H6 Hn. unfold decode_ip, byte_at. simpl nth_error.
  change ([], Some b) with (ret b). rewrite bind_emit, bind_ret.
  rewrite H6. simpl. unfold decode_ipv6.
  destruct (Z.ltb_spec n IPV6_HDR_LEN); [reflexivity | lia].
Qed.

Lemma decode_ip_short_ipv6_witness :
  decode_ip env_linux (firstn 39 ipv6_udp) 39 pktsummary_zero =
    ([EvDecodeIp 39; EvVerbose "ipv6: packet too short (%u bytes)" [39]],
     Some pktsummary_zero).
Proof.
  apply (@decode_ip_short_ipv6 env_linux x60 (firstn 38 (tl ipv6_udp)) 39
           pktsummary_zero); reflexivity.
Defined.

(** ** The IPv4 path through [decode_ip] *)

(** An IPv4 header (version nibble 4, at least 20 bytes): the summary gets
    the total-length field as length, the protocol byte, and the two
    addresses as the 4 bytes of the header tagged IPv4; the bytes past the
    fixed 20-byte header go to the transport demuxer, which keeps addresses
    and length and replaces the protocol only when the TCP or UDP header
    is cut short.  No read leaves the buffer. *)
Theorem decode_ip_version4 (E : env) (pdata : list byte) (n : Z)
    (sm : pktsummary) :
  ip_v (nth 0 pdata x00) = 4 ->
  IP_HDR_LEN <= n <= Z.of_nat (List.length pdata) -> n < 2 ^ 32 ->
  exists tr sm',
    decode_ip E pdata n sm = (EvDecodeIp n :: tr, Some sm') /\
    quiet tr = true /\
    src sm' = mk_addr IPv4 (firstn 4 (skipn 12 pdata)) /\
    dst sm' = mk_addr IPv4 (firstn 4 (skipn 16 pdata)) /\
    List.length (ip (src sm')) = 4%nat /\
    List.length (ip (dst sm')) = 4%nat /\
    len sm' = ntohs (nth 2 pdata x00) (nth 3 pdata x00) /\
    proto sm' = (if transport_short (u8 (nth 9 pdata x00)) (n - 20)
                 then IPPROTO_INVALID E else u8 (nth 9 pdata x00)) /\
    link_eq sm' sm.
Proof.
  intros Hv Hn Hw. pose proof Hn as Hn'. unfold IP_HDR_LEN in Hn'.
  rewrite decode_ip_v4_ok by assumption.
  destruct (@decode_ip_payload_frame E (skipn 20 pdata) (n - 20)
              (ipv4_filled pdata sm))
    as (tr & sm' & Hrun & Hq & Ht & Hsm & Hdm & Hl & Hs & Hd & Hp).
  { apply (@length_skipn_Z pdata 20 n); lia. }
  exists tr, sm'. rewrite Hrun, bind_emit. simpl fst; simpl snd.
  split; [reflexivity|]. split; [exact Hq|].
  rewrite Hs, Hd, Hl, Hp. simpl.
  repeat split; try assumption;
    apply length_field; lia.
Qed.

Lemma decode_ip_version4_witness :
  exists sm',
    decode_ip env_linux (skipn 14 eth_ipv4_tcp) 40 pktsummary_zero =
      ([EvDecodeIp 40], Some sm') /\
    src sm' = mk_addr IPv4 [x0a; x00; x00; x01] /\
    dst sm' = mk_addr IPv4 [x0a; x00; x00; x02] /\
    len sm' = 40 /\ proto sm' = 6.
Proof.
  destruct (@decode_ip_version4 env_linux (skipn 14 eth_ipv4_tcp) 40
              pktsummary_zero)
    as (tr & sm' & Hrun & _ & Hs & Hd & _ & _ & Hl & Hp & _).
  - reflexivity.
  - vm_compute. split; discriminate.
  - reflexivity.
  - exists sm'.
    assert (Heq : (EvDecodeIp 40 :: tr, Some sm') =
                  decode_ip env_linux (skipn 14 eth_ipv4_tcp) 40
                    pktsummary_zero) by (now rewrite Hrun).
    vm_compute in Heq. injection Heq as -> ->.
    repeat split; reflexivity.
Defined.

(** ** Ethernet and Linux cooked capture: what is not dispatched *)

Lemma decode_ether_run (E : env) (pheader : pcap_pkthdr) (pdata : list byte) :
  ETHER_HDR_LEN <= caplen pheader <= Z.of_nat (List.length pdata) ->
  decode_ether E pheader pdata =
    let sm := ether_sm pheader pdata in
    let type := ether_type pdata in
    if (type =? ETHERTYPE_IP) || (type =? ETHERTYPE_IPV6) then
      if negb (opt_want_pppoe E) then
        sm' <- decode_ip E (skipn 14 pdata)
                 (sub32 (caplen pheader) ETHER_HDR_LEN) sm ;;
        acct_for sm' ;;; ret sm'
      else
        ([EvVerbose "ether: discarded IP packet, expecting PPPoE instead" []],
         Some sm)
    else if type =? ETHERTYPE_ARP then ([], Some sm)
    else if type =? ETHERTYPE_PPPOE then
      if opt_want_pppoe E then
        decode_pppoe_real E (skipn 14 pdata)
          (sub32 (caplen pheader) ETHER_HDR_LEN) sm
      else
        ([EvVerbose "ether: got PPPoE frame: maybe you want --pppoe" []],
         Some sm)
    else ([EvVerbose "ether: unknown protocol (0x%04x)" [type]], Some sm).
Proof.
  unfold ETHER_HDR_LEN. intros H. unfold decode_ether, ETHER_HDR_LEN.
  change (Z.to_nat 14) with 14%nat.
  destruct (Z.ltb_spec (caplen pheader) 14); [lia|].
  reads. rewrite skipn_O. reflexivity.
Qed.

(** In PPPoE mode an Ethernet frame with an IP or IPv6 ethertype is logged
    and discarded: it reaches neither the IP demuxer nor the sink.  Without
    PPPoE mode a PPPoE session frame is logged and not decoded. *)
Theorem decode_ether_pppoe_mode (E : env) (pheader : pcap_pkthdr)
    (pdata : list byte) :
  ETHER_HDR_LEN <= caplen pheader <= Z.of_nat (List.length pdata) ->
  (opt_want_pppoe E = true ->
   ether_type pdata = ETHERTYPE_IP \/ ether_type pdata = ETHERTYPE_IPV6 ->
   decode_ether E pheader pdata =
     ([EvVerbose "ether: discarded IP packet, expecting PPPoE instead" []],
      Some (ether_sm pheader pdata))) /\
  (opt_want_pppoe E = false ->
   ether_type pdata = ETHERTYPE_PPPOE ->
   decode_ether E pheader pdata =
     ([EvVerbose "ether: got PPPoE frame: maybe you want --pppoe" []],
      Some (ether_sm pheader pdata))).
Proof.
  intros H. rewrite decode_ether_run by exact H. cbv zeta. split.
  - intros Hopt [-> | ->]; rewrite Hopt; reflexivity.
  - intros Hopt ->. rewrite Hopt. reflexivity.
Qed.

Lemma decode_ether_pppoe_mode_witness :
  decode_ether (mk_env false false true false 10 true 254)
               (mk_pkthdr 1000 54) eth_ipv4_tcp =
    ([EvVerbose "ether: discarded IP packet, expecting PPPoE instead" []],
     Some (ether_sm (mk_pkthdr 1000 54) eth_ipv4_tcp)).
Proof.
  apply (@decode_ether_pppoe_mode (mk_env false false true false 10 true 254)
           (mk_pkthdr 1000 54) eth_ipv4_tcp).
  - vm_compute. split; discriminate.
  - reflexivity.
  - left. reflexivity.
Defined.

(** An Ethernet frame whose ethertype is neither IP, IPv6 nor PPPoE is not
    decoded: ARP is dropped without a word, any other type is logged with
    its value. *)
Theorem decode_ether_not_ip (E : env) (pheader : pcap_pkthdr)
    (pdata : list byte) :
  ETHER_HDR_LEN <= caplen pheader <= Z.of_nat (List.length pdata) ->
  ether_type pdata <> ETHERTYPE_IP -> ether_type pdata <> ETHERTYPE_IPV6 ->
  ether_type pdata <> ETHERTYPE_PPPOE ->
  decode_ether E pheader pdata =
    (if ether_type pdata =? ETHERTYPE_ARP then []
     else [EvVerbose "ether: unknown protocol (0x%04x)" [ether_type pdata]],
     Some (ether_sm pheader pdata)).
Proof.
  intros H Hip Hip6 Hpp. rewrite decode_ether_run by exact H. cbv zeta.
  destruct (Z.eqb_spec (ether_type pdata) ETHERTYPE_IP); [contradiction|].
  destruct (Z.eqb_spec (ether_type pdata) ETHERTYPE_IPV6); [contradiction|].
  destruct (Z.eqb_spec (ether_type pdata) ETHERTYPE_PPPOE); [contradiction|].
  simpl. destruct (_ =? ETHERTYPE_ARP); reflexivity.
Qed.

Lemma decode_ether_not_ip_witness :
  decode_ether env_linux (mk_pkthdr 1000 20) eth_arp =
    ([], Some (ether_sm (mk_pkthdr 1000 20) eth_arp)).
Proof.
  apply (@decode_ether_not_ip env_linux (mk_pkthdr 1000 20) eth_arp);
    vm_compute; try discriminate. split; discriminate.
Defined.

Lemma decode_linux_sll_run (E : env) (pheader : pcap_pkthdr)
    (pdata : list byte) :
  SLL_HDR_LEN <= caplen pheader <= Z.of_nat (List.length pdata) ->
  decode_linux_sll E pheader pdata =
    let type := sll_ether_type pdata in
    if (type =? ETHERTYPE_IP) || (type =? ETHERTYPE_IPV6) then
      sm <- decode_ip E (skipn 16 pdata)
              (sub32 (caplen pheader) SLL_HDR_LEN) pktsummary_zero ;;
      acct_for (set_time sm (ts_tv_sec pheader)) ;;;
      ret (set_time sm (ts_tv_sec pheader))
    else if type =? ETHERTYPE_ARP then ([], Some pktsummary_zero)
    else ([EvVerbose "linux_sll: unknown protocol (%04x)" [type]],
          Some pktsummary_zero).
Proof.
  unfold SLL_HDR_LEN. intros H. unfold decode_linux_sll, SLL_HDR_LEN.
  change (Z.to_nat 16) with 16%nat.
  destruct (Z.ltb_spec (caplen pheader) 16); [lia|].
  reads. reflexivity.
Qed.

(** A cooked-capture frame whose ethertype is neither IP nor IPv6 is not
    decoded: ARP is dropped without a word, any other type, the PPPoE
    session type included, is logged with its value. *)
Theorem decode_linux_sll_not_ip (E : env) (pheader : pcap_pkthdr)
    (pdata : list byte) :
  SLL_HDR_LEN <= caplen pheader <= Z.of_nat (List.length pdata) ->
  sll_ether_type pdata <> ETHERTYPE_IP ->
  sll_ether_type pdata <> ETHERTYPE_IPV6 ->
  decode_linux_sll E pheader pdata =
    (if sll_ether_type pdata =? ETHERTYPE_ARP then []
     else [EvVerbose "linux_sll: unknown protocol (%04x)"
             [sll_ether_type pdata]],
     Some pktsummary_zero).
Proof.
  intros H Hip Hip6. rewrite decode_linux_sll_run by exact H. cbv zeta.
  destruct (Z.eqb_spec (sll_ether_type pdata) ETHERTYPE_IP); [contradiction|].
  destruct (Z.eqb_spec (sll_ether_type pdata) ETHERTYPE_IPV6);
    [contradiction|].
  simpl. destruct (_ =? ETHERTYPE_ARP); reflexivity.
Qed.

Lemma decode_linux_sll_not_ip_witness :
  decode_linux_sll env_linux (mk_pkthdr 1000 16)
      [x00; x00; x00; x01; x00; x06; x66; x77; x88; x99; xaa; xbb; x00; x00;
       x88; x64] =
    ([EvVerbose "linux_sll: unknown protocol (%04x)" [0x8864]],
     Some pktsummary_zero).
Proof.
  apply (@decode_linux_sll_not_ip env_linux (mk_pkthdr 1000 16)
           [x00; x00; x00; x01; x00; x06; x66; x77; x88; x99; xaa; xbb;
            x00; x00; x88; x64]);
    vm_compute; try discriminate. split; discriminate.
Defined.

(** ** Linux cooked capture carrying IPv6/UDP *)

Lemma decode_ip_v6_ok (E : env) (pdata : list byte) (n : Z) (sm : pktsummary) :
  ip_v (nth 0 pdata x00) = 6 ->
  IPV6_HDR_LEN <= n <= Z.of_nat (List.length pdata) -> n < 2 ^ 32 ->
  decode_ip E pdata n sm =
    (emit (EvDecodeIp n) ;;;
     decode_ip_payload E (skipn 40 pdata) (n - 40) (ipv6_filled pdata sm)).
Proof.
  intros Hv Hn Hw. pose proof Hn as Hn'. unfold IPV6_HDR_LEN in Hn'.
  unfold decode_ip. reads. rewrite Hv. simpl.
  rewrite decode_ipv6_ok by assumption. reflexivity.
Qed.

(** A cooked-capture frame with an IP or IPv6 ethertype whose payload has
    version nibble 6 and next header UDP, captured through the UDP header
    (16 + 40 + 8 bytes): the sink is called once with the capture time, the
    two 16-byte addresses of the IPv6 header, the payload length plus 40 as
    the 16-bit length field holds it (modulo 65536), protocol 17 and the
    two ports of the UDP header; flags and MAC addresses are zero. *)
Theorem decode_linux_sll_ipv6_udp (E : env) (pheader : pcap_pkthdr)
    (pdata : list byte) :
  SLL_HDR_LEN + IPV6_HDR_LEN + UDP_HDR_LEN <= caplen pheader ->
  caplen pheader <= Z.of_nat (List.length pdata) ->
  caplen pheader < 2 ^ 32 ->
  sll_ether_type pdata = ETHERTYPE_IP \/
  sll_ether_type pdata = ETHERTYPE_IPV6 ->
  ip_v (nth 16 pdata x00) = 6 ->
  u8 (nth 22 pdata x00) = IPPROTO_UDP ->
  exists sm,
    decode_linux_sll E pheader pdata =
      ([EvDecodeIp (caplen pheader - 16); EvAcct sm], Some sm) /\
    time sm = ts_tv_sec pheader /\
    src sm = mk_addr IPv6 (firstn 16 (skipn 24 pdata)) /\
    dst sm = mk_addr IPv6 (firstn 16 (skipn 40 pdata)) /\
    len sm = (ntohs (nth 20 pdata x00) (nth 21 pdata x00) + 40) mod 2 ^ 16 /\
    proto sm = IPPROTO_UDP /\
    src_port sm = ntohs (nth 56 pdata x00) (nth 57 pdata x00) /\
    dst_port sm = ntohs (nth 58 pdata x00) (nth 59 pdata x00) /\
    tcp_flags sm = 0 /\ src_mac sm = mac_zero /\ dst_mac sm = mac_zero.
Proof.
  unfold SLL_HDR_LEN, IPV6_HDR_LEN, UDP_HDR_LEN.
  intros Hcap Hbuf Hw Htype Hv Hp.
  rewrite decode_linux_sll_run by (unfold SLL_HDR_LEN; lia). cbv zeta.
  replace ((sll_ether_type pdata =? ETHERTYPE_IP)
           || (sll_ether_type pdata =? ETHERTYPE_IPV6)) with true
    by (destruct Htype as [-> | ->]; reflexivity).
  unfold sub32, SLL_HDR_LEN. rewrite Z.mod_small by lia.
  rewrite decode_ip_v6_ok;
    [ | rewrite nth_skipn; exact Hv
      | unfold IPV6_HDR_LEN; rewrite length_skipn; lia
      | lia ].
  rewrite decode_ip_payload_udp_ok;
    [ | change (u8 (nth 6 (skipn 16 pdata) x00) = IPPROTO_UDP);
        rewrite nth_skipn; exact Hp
      | unfold UDP_HDR_LEN; rewrite !length_skipn; lia ].
  unfold bind, acct_for, emit, ret, ipv6_filled. simpl.
  rewrite ?skipn_skipn, ?nth_skipn. simpl.
  eexists. split; [reflexivity|].
  simpl. repeat split; try reflexivity. exact Hp.
Qed.

Lemma decode_linux_sll_ipv6_udp_witness :
  exists sm,
    decode_linux_sll env_linux (mk_pkthdr 1000 64) sll_ipv6_udp =
      ([EvDecodeIp 48; EvAcct sm], Some sm) /\
    src sm = mk_addr IPv6 (firstn 16 (skipn 8 ipv6_udp)) /\
    dst sm = mk_addr IPv6 (firstn 16 (skipn 24 ipv6_udp)) /\
    len sm = 48 /\ proto sm = 17 /\ src_port sm = 53 /\ dst_port sm = 1234.
Proof.
  destruct (@decode_linux_sll_ipv6_udp env_linux (mk_pkthdr 1000 64)
              sll_ipv6_udp)
    as (sm & Hrun & _ & Hs & Hd & Hl & Hp & Hsp & Hdp & _);
    try reflexivity; try (vm_compute; discriminate).
  - right. reflexivity.
  - exists sm. repeat split; assumption.
Defined.

(** ** PPPoE *)

Lemma decode_pppoe_real_run (E : env) (pdata : list byte) (n : Z)
    (sm : pktsummary) :
  PPPOE_HDR_LEN <= n <= Z.of_nat (List.length pdata) ->
  decode_pppoe_real E pdata n sm =
    let code := u8 (nth 1 pdata x00) in
    let b6 := u8 (nth 6 pdata x00) in
    let b7 := u8 (nth 7 pdata x00) in
    if negb (code =? 0x00) then
      ([EvVerbose "pppoe: code = 0x%02x, expecting 0; ignoring." [code]],
       Some sm)
    else if (b6 =? 0xc0) && (b7 =? 0x21) then ([], Some sm)
    else if (b6 =? 0xc0) && (b7 =? 0x25) then ([], Some sm)
    else if (b6 =? 0x00) && (b7 =? 0x21) then
      sm' <- decode_ip E (skipn 8 pdata) (sub32 n PPPOE_HDR_LEN) sm ;;
      acct_for sm' ;;; ret sm'
    else
      ([EvVerbose "pppoe: non-IP PPPoE packet (0x%02x%02x); ignoring."
          [b6; b7]], Some sm).
Proof.
  unfold PPPOE_HDR_LEN. intros H. unfold decode_pppoe_real, PPPOE_HDR_LEN.
  change (Z.to_nat 8) with 8%nat. cbv zeta.
  destruct (Z.ltb_spec n 8); [lia|].
  unfold andM. reads.
  destruct (negb _); [reflexivity|].
  destruct (u8 (nth 6 pdata x00) =? 192), (u8 (nth 7 pdata x00) =? 33),
    (u8 (nth 7 pdata x00) =? 37), (u8 (nth 6 pdata x00) =? 0);
    simpl; reads; simpl; reads; reflexivity.
Qed.

(** PPPoE session frames that carry LCP (0xc021) or LQR (0xc025) are
    dropped without a diagnostic: nothing is logged, the IP demuxer is not
    entered, the sink is not called. *)
Theorem pppoe_control_dropped (E : env) (pdata : list byte) (n : Z)
    (sm : pktsummary) :
  PPPOE_HDR_LEN <= n <= Z.of_nat (List.length pdata) ->
  u8 (nth 1 pdata x00) = 0x00 ->
  u8 (nth 6 pdata x00) = 0xc0 ->
  u8 (nth 7 pdata x00) = 0x21 \/ u8 (nth 7 pdata x00) = 0x25 ->
  decode_pppoe_real E pdata n sm = ([], Some sm).
Proof.
  intros H Hc H6 H7. rewrite decode_pppoe_real_run by exact H. cbv zeta.
  rewrite Hc, H6. destruct H7 as [-> | ->]; reflexivity.
Qed.

Lemma pppoe_control_dropped_witness :
  decode_pppoe env_linux (mk_pkthdr 1000 16) pppoe_lcp =
    ([], Some (set_time pktsummary_zero 1000)).
Proof.
  apply (@pppoe_control_dropped env_linux pppoe_lcp 16
           (set_time pktsummary_zero 1000)).
  - vm_compute. split; discriminate.
  - reflexivity.
  - reflexivity.
  - left. reflexivity.
Defined.

(** The other PPPoE frames that are not decoded are logged: a frame whose
    code is not 0 with its code, a session frame whose PPP protocol is
    neither LCP, LQR nor IP with the two bytes of that protocol. *)
Theorem pppoe_discard_logged (E : env) (pdata : list byte) (n : Z)
    (sm : pktsummary) :
  PPPOE_HDR_LEN <= n <= Z.of_nat (List.length pdata) ->
  (u8 (nth 1 pdata x00) <> 0x00 ->
   decode_pppoe_real E pdata n sm =
     ([EvVerbose "pppoe: code = 0x%02x, expecting 0; ignoring."
         [u8 (nth 1 pdata x00)]], Some sm)) /\
  (u8 (nth 1 pdata x00) = 0x00 ->
   ntohs (nth 6 pdata x00) (nth 7 pdata x00) <> 0xc021 ->
   ntohs (nth 6 pdata x00) (nth 7 pdata x00) <> 0xc025 ->
   ntohs (nth 6 pdata x00) (nth 7 pdata x00) <> 0x0021 ->
   decode_pppoe_real E pdata n sm =
     ([EvVerbose "pppoe: non-IP PPPoE packet (0x%02x%02x); ignoring."
         [u8 (nth 6 pdata x00); u8 (nth 7 pdata x00)]], Some sm)).
Proof.
  intros H. rewrite decode_pppoe_real_run by exact H. cbv zeta. split.
  - intros Hc. destruct (Z.eqb_spec (u8 (nth 1 pdata x00)) 0);
      [contradiction | reflexivity].
  - intros Hc Hlcp Hlqr Hip. rewrite Hc. simpl.
    destruct (Z.eqb_spec (u8 (nth 6 pdata x00)) 192) as [H6|H6],
      (Z.eqb_spec (u8 (nth 7 pdata x00)) 33) as [H7|H7],
      (Z.eqb_spec (u8 (nth 7 pdata x00)) 37) as [H8|H8],
      (Z.eqb_spec (u8 (nth 6 pdata x00)) 0) as [H9|H9];
      simpl; try reflexivity; exfalso;
      unfold ntohs in Hlcp, Hlqr, Hip;
      repeat match goal with
             | Heq : u8 _ = _ |- _ => rewrite Heq in *; clear Heq
             end;
      first [ now apply Hlcp | now apply Hlqr | now apply Hip | lia ].
Qed.

Lemma pppoe_discard_logged_witness :
  decode_pppoe_real env_linux
      [x11; x09; x00; x00; x00; x00; x00; x00] 8 pktsummary_zero =
    ([EvVerbose "pppoe: code = 0x%02x, expecting 0; ignoring." [9]],
     Some pktsummary_zero).
Proof.
  apply (@pppoe_discard_logged env_linux
           [x11; x09; x00; x00; x00; x00; x00; x00] 8 pktsummary_zero).
  - vm_compute. split; discriminate.
  - vm_compute. discriminate.
Defined.

(** Reads, with the two ways they can go. *)
Lemma byte_at_inv (pdata : list byte) (i : nat) :
  byte_at pdata i = ([], None) \/ byte_at pdata i = ret (nth i pdata x00).
Proof.
  unfold byte_at, ret. destruct (nth_error pdata i) as [b|] eqn:Hb.
  - right. now rewrite (nth_error_nth _ _ x00 Hb).
  - now left.
Qed.

Lemma byte_is_inv (pdata : list byte) (i : nat) (v : Z) :
  byte_is pdata i v = ([], None) \/
  byte_is pdata i v = ret (u8 (nth i pdata x00) =? v).
Proof.
  unfold byte_is. destruct (byte_at_inv pdata i) as [-> | ->].
  - now left.
  - right. now rewrite bind_ret.
Qed.

Lemma no_acct_nil (x : pktsummary) (P : Prop) : In (EvAcct x) [] -> P.
Proof. intros []. Qed.

Lemma no_acct_verbose (x : pktsummary) (fmt : string) (args : list Z)
    (P : Prop) :
  In (EvAcct x) [EvVerbose fmt args] -> P.
Proof. intros [H | []]. discriminate. Qed.

(** Whatever the buffer, [decode_pppoe_real] calls the sink only for a
    frame of at least 8 bytes with code 0 and PPP protocol 0x0021. *)
Theorem pppoe_sink_only_session_ip (E : env) (pdata : list byte) (n : Z)
    (sm x : pktsummary) :
  In (EvAcct x) (fst (decode_pppoe_real E pdata n sm)) ->
  PPPOE_HDR_LEN <= n /\ u8 (nth 1 pdata x00) = 0x00 /\
  u8 (nth 6 pdata x00) = 0x00 /\ u8 (nth 7 pdata x00) = 0x21.
Proof.
  unfold decode_pppoe_real. cbv zeta.
  destruct (Z.ltb_spec n PPPOE_HDR_LEN) as [Hn|Hn];
    [apply no_acct_verbose|].
  destruct (byte_at_inv pdata 1) as [-> | ->]; [apply no_acct_nil|].
  rewrite bind_ret.
  destruct (Z.eqb_spec (u8 (nth 1 pdata x00)) 0) as [Hc|Hc];
    [|apply no_acct_verbose].
  cbv [negb]. unfold andM.
  destruct (byte_is_inv pdata 6 192) as [-> | ->]; [apply no_acct_nil|].
  rewrite !bind_ret.
  destruct (Z.eqb_spec (u8 (nth 6 pdata x00)) 192) as [H6|H6].
  - (* 0xc0: LCP, LQR or a logged protocol *)
    destruct (byte_is_inv pdata 7 33) as [-> | ->]; [apply no_acct_nil|].
    rewrite !bind_ret.
    destruct (u8 (nth 7 pdata x00) =? 33); [apply no_acct_nil|].
    destruct (byte_is_inv pdata 7 37) as [-> | ->]; [apply no_acct_nil|].
    rewrite !bind_ret.
    destruct (u8 (nth 7 pdata x00) =? 37); [apply no_acct_nil|].
    destruct (byte_is_inv pdata 6 0) as [-> | ->]; [apply no_acct_nil|].
    rewrite !bind_ret.
    destruct (Z.eqb_spec (u8 (nth 6 pdata x00)) 0) as [H0|H0]; [lia|].
    rewrite !bind_ret.
    destruct (byte_at_inv pdata 6) as [-> | ->]; [apply no_acct_nil|].
    rewrite !bind_ret.
    destruct (byte_at_inv pdata 7) as [-> | ->]; [apply no_acct_nil|].
    rewrite !bind_ret. apply no_acct_verbose.
  - rewrite !bind_ret.
    destruct (byte_is_inv pdata 6 0) as [-> | ->]; [apply no_acct_nil|].
    rewrite !bind_ret.
    destruct (Z.eqb_spec (u8 (nth 6 pdata x00)) 0) as [H0|H0].
    + destruct (byte_is_inv pdata 7 33) as [-> | ->]; [apply no_acct_nil|].
      rewrite !bind_ret.
      destruct (Z.eqb_spec (u8 (nth 7 pdata x00)) 33) as [H7|H7].
      * intros _. repeat split; assumption.
      * destruct (byte_at_inv pdata 6) as [-> | ->]; [apply no_acct_nil|].
        rewrite !bind_ret.
        destruct (byte_at_inv pdata 7) as [-> | ->]; [apply no_acct_nil|].
        rewrite !bind_ret. apply no_acct_verbose.
    + rewrite !bind_ret.
      destruct (byte_at_inv pdata 6) as [-> | ->]; [apply no_acct_nil|].
      rewrite !bind_ret.
      destruct (byte_at_inv pdata 7) as [-> | ->]; [apply no_acct_nil|].
      rewrite !bind_ret. apply no_acct_verbose.
Qed.

Lemma pppoe_sink_only_session_ip_witness :
  exists x,
    In (EvAcct x)
       (fst (decode_pppoe_real env_linux pppoe_ipv4_tcp 48 pktsummary_zero)) /\
    u8 (nth 6 pppoe_ipv4_tcp x00) = 0x00 /\
    u8 (nth 7 pppoe_ipv4_tcp x00) = 0x21.
Proof.
  eexists. split; [vm_compute; right; left; reflexivity|].
  match goal with
  | |- _ = _ /\ _ =>
      refine (proj2 (proj2
        (@pppoe_sink_only_session_ip env_linux pppoe_ipv4_tcp 48
           pktsummary_zero _ _)))
  end.
  vm_compute. right; left; reflexivity.
Defined.

(** ** Results of runs *)

Lemma post_ret A (R : A -> Prop) (a : A) : R a -> post R (ret a).
Proof. intros H x [= <-]. exact H. Qed.

Lemma post_fault A (R : A -> Prop) (t : list event) : post R (t, None).
Proof. intros x [=]. Qed.

Lemma post_bind A B (Q : A -> Prop) (R : B -> Prop) (m : M A)
    (f : A -> M B) :
  post Q m -> (forall a, Q a -> post R (f a)) -> post R (bind m f).
Proof.
  intros Hm Hf b. unfold bind.
  destruct (snd m) as [a|] eqn:Ha; simpl; [|discriminate].
  apply Hf, Hm, Ha.
Qed.

Lemma post_any A (m : M A) : post (fun _ => True) m.
Proof. intros a _. exact I. Qed.

Lemma post_bytes_at (pdata : list byte) (i k : nat) :
  post (fun a => List.length a = k) (bytes_at pdata i k).
Proof.
  unfold bytes_at. destruct (Nat.leb_spec (i + k) (List.length pdata)).
  - apply post_ret. apply length_field. lia.
  - apply post_fault.
Qed.

Lemma post_ntohs_at (pdata : list byte) (i : nat) :
  post (fun v => 0 <= v < 65536) (ntohs_at pdata i).
Proof.
  unfold ntohs_at.
  apply post_bind with (Q := fun _ => True); [apply post_any|].
  intros hi _. apply post_bind with (Q := fun _ => True); [apply post_any|].
  intros lo _. apply post_ret. apply ntohs_range.
Qed.

Lemma post_verbosef (fmt : string) (args : list Z) :
  post (fun _ => True) (verbosef fmt args).
Proof. apply post_any. Qed.

Lemma addr_wf_zero : addr_wf addr_zero.
Proof. reflexivity. Qed.

(** Walks through code made of reads, diagnostics and conditionals, keeping
    what the reads guarantee about their results. *)
Ltac post_steps :=
  repeat first
    [ eapply post_bind; [apply post_ntohs_at | intros ? ?]
    | eapply post_bind; [apply post_bytes_at | intros ? ?]
    | eapply post_bind; [apply post_any | intros ? _]
    | match goal with
      | |- post _ (if ?c then _ else _) => destruct c
      end ].

Ltac ip_result_leaf :=
  apply post_ret; unfold ip_result, link_eq, transport_guarded, addr_wf in *;
  simpl in *;
  repeat match goal with
         | H : _ /\ _ |- _ => destruct H
         end;
  repeat split;
  try assumption; try lia; try congruence;
  try apply tcp_flags_mask_range;
  try (intros; lia); try (intros [? | ?]; lia).

Lemma decode_ip_payload_result (E : env) (base : pktsummary)
    (pdata : list byte) (n : Z) (sm : pktsummary) :
  link_eq sm base ->
  src_port sm = 0 -> dst_port sm = 0 -> tcp_flags sm = 0 ->
  addr_wf (src sm) -> addr_wf (dst sm) ->
  family (src sm) = family (dst sm) ->
  post (ip_result base) (decode_ip_payload E pdata n sm).
Proof.
  intros Hl Hs Hd Hf Has Had Hfam. unfold decode_ip_payload.
  destruct (Z.eqb_spec (proto sm) IPPROTO_TCP) as [Ht|Ht].
  - post_steps; ip_result_leaf.
  - destruct (Z.eqb_spec (proto sm) IPPROTO_UDP) as [Hu|Hu];
      post_steps; ip_result_leaf.
Qed.

Lemma decode_ipv6_result (E : env) (pdata : list byte) (n : Z)
    (sm : pktsummary) :
  net_zero sm -> post (ip_result sm) (decode_ipv6 E pdata n sm).
Proof.
  intros (Hs & Hd & Hsp & Hdp & Hf). unfold decode_ipv6. cbv zeta.
  post_steps.
  - ip_result_leaf; rewrite ?Hs, ?Hd; reflexivity.
  - apply decode_ip_payload_result; simpl;
      try assumption; try reflexivity; repeat split.
Qed.

(** [decode_ip] on a summary whose network and transport fields are zero:
    the result keeps the link-layer fields and has well-formed addresses,
    ports and flags. *)
Lemma decode_ip_result (E : env) (pdata : list byte) (n : Z)
    (sm : pktsummary) :
  net_zero sm -> post (ip_result sm) (decode_ip E pdata n sm).
Proof.
  intros Hz. pose proof Hz as (Hs & Hd & Hsp & Hdp & Hf).
  unfold decode_ip. cbv zeta.
  eapply post_bind; [apply post_any | intros _ _].
  post_steps.
  - now apply decode_ipv6_result.
  - ip_result_leaf; rewrite ?Hs, ?Hd; reflexivity.
  - ip_result_leaf; rewrite ?Hs, ?Hd; reflexivity.
  - apply decode_ip_payload_result; simpl;
      try assumption; try reflexivity; repeat split.
Qed.

(** ** Calls made by the link-layer decoders *)

Lemma quiet_verbose (tr : list event) (e : event) :
  quiet tr = true -> In e tr ->
  match e with EvVerbose _ _ => True | _ => False end.
Proof.
  induction tr as [|e0 tr IH]; simpl; [intros _ []|].
  destruct e0; simpl; try discriminate.
  intros Hq [<- | Hin]; [exact I | exact (IH Hq Hin)].
Qed.

Lemma calls_sat_silent A (Pip : Z -> Prop) (Pacct : pktsummary -> Prop)
    (m : M A) :
  silent m -> calls_sat Pip Pacct m.
Proof.
  intros Hs e Hin. pose proof (quiet_verbose _ _ Hs Hin) as H.
  destruct e; [exact I | contradiction | contradiction].
Qed.

Lemma calls_sat_bind_silent A B (Pip : Z -> Prop)
    (Pacct : pktsummary -> Prop) (Q : A -> Prop) (m : M A) (f : A -> M B) :
  silent m -> post Q m -> (forall a, Q a -> calls_sat Pip Pacct (f a)) ->
  calls_sat Pip Pacct (bind m f).
Proof.
  intros Hs Hq Hf e. unfold bind.
  destruct (snd m) as [a|] eqn:Ha; simpl.
  - intros Hin. apply in_app_or in Hin as [Hin | Hin].
    + now apply (calls_sat_silent Pip Pacct Hs).
    + now apply (Hf a (Hq a Ha)).
  - now apply (calls_sat_silent Pip Pacct Hs).
Qed.

Lemma calls_sat_dispatch (E : env) (Pip : Z -> Prop)
    (Pacct : pktsummary -> Prop) (g : pktsummary -> pktsummary)
    (pdata : list byte) (n : Z) (sm : pktsummary) :
  Pip n ->
  (forall sm', snd (decode_ip E pdata n sm) = Some sm' -> Pacct (g sm')) ->
  calls_sat Pip Pacct
    (bind (decode_ip E pdata n sm)
          (fun sm' => acct_for (g sm') ;;; ret (g sm'))).
Proof.
  intros Hip Hacct.
  destruct (decode_ip_shape E pdata n sm) as (body & Heq & Hsil & _).
  rewrite Heq in Hacct |- *. simpl in Hacct.
  intros e. unfold bind; simpl.
  destruct (snd body) as [sm'|] eqn:Hr; simpl.
  - intros [<- | Hin]; [exact Hip|].
    apply in_app_or in Hin as [Hin | [<- | []]].
    + pose proof (quiet_verbose _ _ Hsil Hin) as H.
      destruct e; [exact I | contradiction | contradiction].
    + now apply Hacct.
  - intros [<- | Hin]; [exact Hip|].
    pose proof (quiet_verbose _ _ Hsil Hin) as H.
    destruct e; [exact I | contradiction | contradiction].
Qed.

(** Walks through the body of a link-layer decoder up to its dispatches. *)
Ltac calls_steps :=
  repeat first
    [ apply calls_sat_silent; solve [silent_steps]
    | eapply calls_sat_bind_silent;
        [solve [silent_steps] | apply post_bytes_at | intros ? ?]
    | eapply calls_sat_bind_silent;
        [solve [silent_steps] | apply post_any | intros ? _]
    | match goal with
      | |- calls_sat _ _ (if ?a <? ?b then _ else _) =>
          destruct (Z.ltb_spec a b)
      | |- calls_sat _ _ (if ?c then _ else _) => destruct c eqn:?
      end ].

Lemma net_zero_link (sm : pktsummary) :
  net_zero sm -> forall t s d,
  net_zero (set_dst_mac (set_src_mac (set_time sm t) s) d).
Proof. intros H t s d. exact H. Qed.

(** From the result of [decode_ip] to what the sink requires. *)
Lemma sink_ok_of_result (pheader : pcap_pkthdr) (sm sm' : pktsummary) :
  ip_result sm sm' ->
  List.length (src_mac sm) = 6%nat -> List.length (dst_mac sm) = 6%nat ->
  sink_ok pheader (set_time sm' (ts_tv_sec pheader)) /\
  (time sm = ts_tv_sec pheader -> sink_ok pheader sm').
Proof.
  intros ((Ht & Hs & Hd) & Hf & Hsp & Hdp & Has & Had & Hfam & Hg) Hls Hld.
  unfold sink_ok, summary_shape. simpl. rewrite Hs, Hd.
  split; [|intros Hts; rewrite Ht, Hts]; repeat split;
    try assumption; try lia; apply Hg.
Qed.

Lemma sub32_exact (a b : Z) : 0 <= b <= a -> a < 2 ^ 32 -> sub32 a b = a - b.
Proof. intros. unfold sub32. apply Z.mod_small. lia. Qed.

Lemma calls_pppoe_real (E : env) (Pip : Z -> Prop)
    (pheader : pcap_pkthdr) (pdata : list byte) (n : Z) (sm : pktsummary) :
  (PPPOE_HDR_LEN <= n -> Pip (sub32 n PPPOE_HDR_LEN)) ->
  net_zero sm -> time sm = ts_tv_sec pheader ->
  List.length (src_mac sm) = 6%nat -> List.length (dst_mac sm) = 6%nat ->
  calls_sat Pip (sink_ok pheader) (decode_pppoe_real E pdata n sm).
Proof.
  intros Hip Hz Ht Hls Hld. unfold decode_pppoe_real. cbv zeta.
  calls_steps.
  apply calls_sat_dispatch; [now apply Hip|].
  intros sm' Hres. apply (decode_ip_result E _ _ Hz) in Hres.
  now apply (sink_ok_of_result pheader Hres).
Qed.

(** Closes the two kinds of goals a dispatch leaves: the length handed to
    [decode_ip], and the summary handed to the sink. *)
Ltac dispatch_leaf pheader Hh :=
  apply calls_sat_dispatch;
  [ intros Hrange; unfold dispatch_len; rewrite Hh;
    rewrite ?sub32_exact by lia;
    split; [lia | left; lia]
  | let sm' := fresh "sm'" in
    let Hres := fresh "Hres" in
    intros sm' Hres;
    apply decode_ip_result in Hres; [ | repeat split ];
    apply (sink_ok_of_result pheader) in Hres;
    [ first [ exact (proj1 Hres) | apply (proj2 Hres); reflexivity ]
    | first [ reflexivity | assumption ]
    | first [ reflexivity | assumption ] ] ].

Lemma calls_ether (E : env) (lh : linkhdr) (pheader : pcap_pkthdr)
    (pdata : list byte) :
  hdrlen lh = ETHER_HDR_LEN -> linktype lh = DLT_EN10MB ->
  calls_sat (fun n => 0 <= caplen pheader < 2 ^ 32 ->
                      dispatch_len E lh pheader n)
            (sink_ok pheader) (decode_ether E pheader pdata).
Proof.
  intros Hh Hl. unfold decode_ether. cbv zeta.
  unfold ETHER_HDR_LEN in *. calls_steps.
  - dispatch_leaf pheader Hh.
  - cbv beta in *.
    apply calls_pppoe_real;
      [ | repeat split | reflexivity | assumption | assumption ].
    intros Hp8 Hrange. unfold PPPOE_HDR_LEN in *.
    rewrite (@sub32_exact (caplen pheader) 14) in * by lia.
    rewrite sub32_exact by lia.
    unfold dispatch_len. rewrite Hh. split; [lia|].
    right. repeat split; try assumption; unfold PPPOE_HDR_LEN; lia.
Qed.

Lemma calls_loop (E : env) (lh : linkhdr) (pheader : pcap_pkthdr)
    (pdata : list byte) :
  hdrlen lh = NULL_HDR_LEN ->
  calls_sat (fun n => 0 <= caplen pheader < 2 ^ 32 ->
                      dispatch_len E lh pheader n)
            (sink_ok pheader) (decode_loop E pheader pdata).
Proof.
  intros Hh. unfold decode_loop. cbv zeta.
  unfold NULL_HDR_LEN in *. calls_steps; dispatch_leaf pheader Hh.
Qed.

Lemma calls_ppp (E : env) (lh : linkhdr) (pheader : pcap_pkthdr)
    (pdata : list byte) :
  hdrlen lh = PPP_HDR_LEN ->
  calls_sat (fun n => 0 <= caplen pheader < 2 ^ 32 ->
                      dispatch_len E lh pheader n)
            (sink_ok pheader) (decode_ppp E pheader pdata).
Proof.
  intros Hh. unfold decode_ppp. cbv zeta.
  unfold PPP_HDR_LEN, PPPOE_HDR_LEN in *.
  calls_steps; dispatch_leaf pheader Hh.
Qed.

Lemma calls_pppoe (E : env) (lh : linkhdr) (pheader : pcap_pkthdr)
    (pdata : list byte) :
  hdrlen lh = PPPOE_HDR_LEN ->
  calls_sat (fun n => 0 <= caplen pheader < 2 ^ 32 ->
                      dispatch_len E lh pheader n)
            (sink_ok pheader) (decode_pppoe E pheader pdata).
Proof.
  intros Hh. unfold decode_pppoe. cbv zeta.
  apply calls_pppoe_real;
    [ | repeat split | reflexivity | reflexivity | reflexivity ].
  intros Hp8 Hrange. unfold PPPOE_HDR_LEN in *.
  rewrite sub32_exact by lia.
  unfold dispatch_len. rewrite Hh. split; [lia | left; lia].
Qed.

Lemma calls_linux_sll (E : env) (lh : linkhdr) (pheader : pcap_pkthdr)
    (pdata : list byte) :
  hdrlen lh = SLL_HDR_LEN ->
  calls_sat (fun n => 0 <= caplen pheader < 2 ^ 32 ->
                      dispatch_len E lh pheader n)
            (sink_ok pheader) (decode_linux_sll E pheader pdata).
Proof.
  intros Hh. unfold decode_linux_sll. cbv zeta.
  unfold SLL_HDR_LEN in *. calls_steps; dispatch_leaf pheader Hh.
Qed.

Lemma calls_raw (E : env) (lh : linkhdr) (pheader : pcap_pkthdr)
    (pdata : list byte) :
  hdrlen lh = RAW_HDR_LEN ->
  calls_sat (fun n => 0 <= caplen pheader < 2 ^ 32 ->
                      dispatch_len E lh pheader n)
            (sink_ok pheader) (decode_raw E pheader pdata).
Proof.
  intros Hh. unfold decode_raw. cbv zeta.
  unfold RAW_HDR_LEN in *. dispatch_leaf pheader Hh.
Qed.

(** Every handler of the table: the lengths it hands to [decode_ip] and the
    summaries it hands to the sink. *)
Lemma calls_handlers (E : env) (lh : linkhdr) (h : pcap_handler)
    (pheader : pcap_pkthdr) (pdata : list byte) :
  registered E lh -> handler lh = Some h ->
  calls_sat (fun n => 0 <= caplen pheader < 2 ^ 32 ->
                      dispatch_len E lh pheader n)
            (sink_ok pheader) (h pheader pdata).
Proof.
  intros [Hin _] Hh.
  table_cases E Hin; simpl in Hh; try discriminate; injection Hh as <-;
    first [ apply calls_ether; reflexivity
          | apply calls_loop; reflexivity
          | apply calls_ppp; reflexivity
          | apply calls_pppoe; reflexivity
          | apply calls_linux_sll; reflexivity
          | apply calls_raw; reflexivity ].
Qed.

Ltac ether_row :=
  split; [simpl; auto | discriminate].

(** Every summary that reaches the sink carries the capture time of the
    frame, whichever decoder of the table handled it: [decode_ether] and
    [decode_pppoe] store it at the start, the others right before the
    call. *)
Theorem sink_gets_capture_time (E : env) (lh : linkhdr) (h : pcap_handler)
    (pheader : pcap_pkthdr) (pdata : list byte) (sm : pktsummary) :
  registered E lh -> handler lh = Some h ->
  In (EvAcct sm) (fst (h pheader pdata)) ->
  time sm = ts_tv_sec pheader.
Proof.
  intros Hr Hh Hin.
  exact (proj1 (calls_handlers pheader pdata Hr Hh _ Hin)).
Qed.

Lemma sink_gets_capture_time_witness :
  exists sm,
    In (EvAcct sm)
       (fst (decode_linux_sll env_linux (mk_pkthdr 1000 56) sll_ipv4_tcp)) /\
    time sm = 1000.
Proof.
  eexists. split; [vm_compute; right; left; reflexivity|].
  match goal with
  | |- time ?sm = _ =>
      apply (@sink_gets_capture_time env_linux
               (mk_linkhdr DLT_LINUX_SLL SLL_HDR_LEN
                  (Some (decode_linux_sll env_linux)))
               (decode_linux_sll env_linux) (mk_pkthdr 1000 56)
               sll_ipv4_tcp sm)
  end.
  - split; [simpl; auto 10 | discriminate].
  - reflexivity.
  - vm_compute. right; left; reflexivity.
Defined.

(** Every summary that reaches the sink is well-formed: the TCP flags are
    within the six flags (at most 63), the ports fit 16 bits, source and
    destination address are of one family and are 4 bytes when tagged IPv4,
    16 bytes when tagged IPv6 and empty when still untouched, and both MAC
    addresses are 6 bytes. *)
Theorem sink_summary_shape (E : env) (lh : linkhdr) (h : pcap_handler)
    (pheader : pcap_pkthdr) (pdata : list byte) (sm : pktsummary) :
  registered E lh -> handler lh = Some h ->
  In (EvAcct sm) (fst (h pheader pdata)) ->
  0 <= tcp_flags sm <= 63 /\
  0 <= src_port sm < 65536 /\ 0 <= dst_port sm < 65536 /\
  addr_wf (src sm) /\ addr_wf (dst sm) /\
  family (src sm) = family (dst sm) /\
  List.length (src_mac sm) = 6%nat /\ List.length (dst_mac sm) = 6%nat.
Proof.
  intros Hr Hh Hin.
  exact (proj1 (proj2 (calls_handlers pheader pdata Hr Hh _ Hin))).
Qed.

Lemma sink_summary_shape_witness :
  exists sm,
    In (EvAcct sm)
       (fst (decode_ether env_linux (mk_pkthdr 1000 54) eth_ipv4_tcp)) /\
    0 <= tcp_flags sm <= 63 /\ addr_wf (src sm) /\
    List.length (src_mac sm) = 6%nat.
Proof.
  eexists. split; [vm_compute; right; left; reflexivity|].
  match goal with
  | |- 0 <= tcp_flags ?sm <= 63 /\ _ =>
      destruct (@sink_summary_shape env_linux
                  (mk_linkhdr DLT_EN10MB ETHER_HDR_LEN
                     (Some (decode_ether env_linux)))
                  (decode_ether env_linux) (mk_pkthdr 1000 54)
                  eth_ipv4_tcp sm)
        as (Hf & _ & _ & Ha & _ & _ & Hm & _)
  end.
  - ether_row.
  - reflexivity.
  - vm_compute. right; left; reflexivity.
  - split; [exact Hf | split; [exact Ha | exact Hm]].
Defined.

(** In every summary that reaches the sink the TCP flags are zero unless
    the protocol is TCP, and the ports are zero unless the protocol is TCP
    or UDP: a packet whose transport header was cut short, or of another
    protocol, is accounted without ports and flags. *)
Theorem sink_transport_fields (E : env) (lh : linkhdr) (h : pcap_handler)
    (pheader : pcap_pkthdr) (pdata : list byte) (sm : pktsummary) :
  registered E lh -> handler lh = Some h ->
  In (EvAcct sm) (fst (h pheader pdata)) ->
  (tcp_flags sm <> 0 -> proto sm = IPPROTO_TCP) /\
  (src_port sm <> 0 \/ dst_port sm <> 0 ->
   proto sm = IPPROTO_TCP \/ proto sm = IPPROTO_UDP).
Proof.
  intros Hr Hh Hin.
  exact (proj2 (proj2 (calls_handlers pheader pdata Hr Hh _ Hin))).
Qed.

Lemma sink_transport_fields_witness :
  exists sm,
    In (EvAcct sm)
       (fst (decode_ether env_linux (mk_pkthdr 1000 40)
               (firstn 40 eth_ipv4_tcp))) /\
    proto sm = 254 /\
    ~ (src_port sm <> 0 \/ dst_port sm <> 0) /\ ~ tcp_flags sm <> 0.
Proof.
  eexists. split; [vm_compute; right; right; left; reflexivity|].
  match goal with
  | |- proto ?sm = _ /\ _ =>
      pose proof (@sink_transport_fields env_linux
                    (mk_linkhdr DLT_EN10MB ETHER_HDR_LEN
                       (Some (decode_ether env_linux)))
                    (decode_ether env_linux) (mk_pkthdr 1000 40)
                    (firstn 40 eth_ipv4_tcp) sm) as H
  end.
  destruct H as (Hf & Hp).
  - ether_row.
  - reflexivity.
  - vm_compute. right; right; left; reflexivity.
  - split; [reflexivity|]. split.
    + intros Hne. apply Hp in Hne. vm_compute in Hne.
      destruct Hne; discriminate.
    + intros Hne. apply Hf in Hne. vm_compute in Hne. discriminate.
Defined.

(** The length a decoder hands to [decode_ip] is what the capture leaves
    behind the link header of the row (4 bytes for PPP, although the frame
    must have 8), never negative; [decode_ether] in PPPoE mode hands on
    what is left behind the PPPoE header as well. *)
Theorem dispatch_length (E : env) (lh : linkhdr) (h : pcap_handler)
    (pheader : pcap_pkthdr) (pdata : list byte) (n : Z) :
  registered E lh -> handler lh = Some h ->
  0 <= caplen pheader < 2 ^ 32 ->
  In (EvDecodeIp n) (fst (h pheader pdata)) ->
  0 <= n /\
  (n = caplen pheader - hdrlen lh \/
   (linktype lh = DLT_EN10MB /\ opt_want_pppoe E = true /\
    n = caplen pheader - hdrlen lh - PPPOE_HDR_LEN)).
Proof.
  intros Hr Hh Hrange Hin.
  exact (calls_handlers pheader pdata Hr Hh _ Hin Hrange).
Qed.

Lemma dispatch_length_witness :
  In (EvDecodeIp 40)
     (fst (decode_ether env_linux (mk_pkthdr 1000 54) eth_ipv4_tcp)) /\
  40 = 54 - ETHER_HDR_LEN.
Proof.
  split; [vm_compute; left; reflexivity|].
  destruct (@dispatch_length env_linux
              (mk_linkhdr DLT_EN10MB ETHER_HDR_LEN
                 (Some (decode_ether env_linux)))
              (decode_ether env_linux) (mk_pkthdr 1000 54) eth_ipv4_tcp 40)
    as (_ & [Heq | (_ & Hopt & _)]).
  - ether_row.
  - reflexivity.
  - vm_compute. split; [discriminate | reflexivity].
  - vm_compute. left; reflexivity.
  - exact Heq.
  - discriminate Hopt.
Defined.

(** ** Reads outside the buffer *)

Lemma ip_lens_dec (tr : list event) :
  (forall n, In (EvDecodeIp n) tr -> 1 <= n) \/
  (exists n, In (EvDecodeIp n) tr /\ n < 1).
Proof.
  induction tr as [|e tr [IH | (n & Hin & Hn)]].
  - left. intros n [].
  - destruct e as [f a | s | k].
    + left. intros n [Habs | Hin]; [discriminate | now apply IH].
    + left. intros n [Habs | Hin]; [discriminate | now apply IH].
    + destruct (Z.le_gt_cases 1 k) as [Hk | Hk].
      * left. intros n [[= <-] | Hin]; [exact Hk | now apply IH].
      * right. exists k. split; [now left | lia].
  - right. exists n. split; [now right | exact Hn].
Qed.

(** Memory safety of the link-layer decoders: when the buffer holds at
    least the captured length, the only read that can leave it is the
    read of the version nibble by [decode_ip] on an empty payload, which
    happens when the capture ends right behind the link header (or, for
    Ethernet in PPPoE mode, right behind the PPPoE header). *)
Theorem fault_only_on_empty_payload (E : env) (lh : linkhdr)
    (h : pcap_handler) (pheader : pcap_pkthdr) (pdata : list byte) :
  registered E lh -> handler lh = Some h ->
  0 <= caplen pheader < 2 ^ 32 ->
  caplen pheader <= Z.of_nat (List.length pdata) ->
  snd (h pheader pdata) = None ->
  In (EvDecodeIp 0) (fst (h pheader pdata)) /\
  (caplen pheader = hdrlen lh \/
   (linktype lh = DLT_EN10MB /\ opt_want_pppoe E = true /\
    caplen pheader = hdrlen lh + PPPOE_HDR_LEN)).
Proof.
  intros Hr Hh Hrange Hbuf Hnone.
  destruct (ip_lens_dec (fst (h pheader pdata))) as [Hall | (n & Hin & Hn)].
  - exfalso.
    exact (completes_handlers pheader pdata Hr Hh Hrange Hbuf Hall Hnone).
  - destruct (calls_handlers pheader pdata Hr Hh _ Hin Hrange)
      as (Hpos & Hlen).
    assert (n = 0) by lia. subst n. split; [exact Hin|].
    destruct Hlen as [Hlen | (Hl & Hopt & Hlen)]; [left; lia|].
    right. repeat split; try assumption. lia.
Qed.

Lemma fault_only_on_empty_payload_witness :
  snd (decode_ether env_linux (mk_pkthdr 1000 14) (firstn 14 eth_ipv4_tcp))
    = None /\
  In (EvDecodeIp 0)
     (fst (decode_ether env_linux (mk_pkthdr 1000 14)
             (firstn 14 eth_ipv4_tcp))).
Proof.
  split; [reflexivity|].
  apply (@fault_only_on_empty_payload env_linux
           (mk_linkhdr DLT_EN10MB ETHER_HDR_LEN
              (Some (decode_ether env_linux)))
           (decode_ether env_linux) (mk_pkthdr 1000 14)
           (firstn 14 eth_ipv4_tcp)).
  - ether_row.
  - reflexivity.
  - vm_compute. split; [discriminate | reflexivity].
  - vm_compute. discriminate.
  - reflexivity.
Defined.

(** ** Byte order of the null/loopback header *)

Lemma land_shiftl_low (hi lo k : Z) :
  0 <= k -> 0 <= lo < 2 ^ k -> Z.land (Z.shiftl hi k) lo = 0.
Proof.
  intros Hk Hlo. apply Z.bits_inj'. intros m Hm.
  rewrite Z.land_spec, Z.bits_0, Z.shiftl_spec by lia.
  destruct (Z.lt_ge_cases m k) as [Hlt | Hge].
  - rewrite Z.testbit_neg_r by lia. reflexivity.
  - replace (Z.testbit lo m) with false; [apply andb_false_r|].
    symmetry. destruct (Z.eq_dec lo 0) as [-> | Hne]; [apply Z.bits_0|].
    apply Z.bits_above_log2; [lia|].
    assert (Z.log2 lo < k) by (apply Z.log2_lt_pow2; lia). lia.
Qed.

Lemma lor_shiftl_add (hi lo k : Z) :
  0 <= k -> 0 <= lo < 2 ^ k -> Z.lor (Z.shiftl hi k) lo = hi * 2 ^ k + lo.
Proof.
  intros Hk Hlo. pose proof (Z.add_lor_land (Z.shiftl hi k) lo) as H.
  rewrite land_shiftl_low in H by assumption.
  rewrite Z.shiftl_mul_pow2 in * by lia. lia.
Qed.

Lemma be32_sum (a b c d : byte) :
  be32 a b c d = u8 a * 16777216 + u8 b * 65536 + u8 c * 256 + u8 d.
Proof.
  pose proof (u8_range a). pose proof (u8_range b).
  pose proof (u8_range c). pose proof (u8_range d).
  unfold be32.
  rewrite (@lor_shiftl_add (u8 c) (u8 d) 8) by lia.
  rewrite (@lor_shiftl_add (u8 b) _ 16) by lia.
  rewrite (@lor_shiftl_add (u8 a) _ 24) by lia.
  lia.
Qed.

Lemma bswap32_be32 (a b c d : byte) :
  bswap32 (be32 a b c d) = be32 d c b a.
Proof.
  pose proof (u8_range a). pose proof (u8_range b).
  pose proof (u8_range c). pose proof (u8_range d).
  unfold bswap32. rewrite (be32_sum a b c d).
  set (v := u8 a * 16777216 + u8 b * 65536 + u8 c * 256 + u8 d).
  change 255 with (Z.ones 8). rewrite !Z.land_ones, !Z.shiftr_div_pow2 by lia.
  assert (Hb0 : v mod 2 ^ 8 = u8 d)
    by (subst v; change (2 ^ 8) with 256; Z.div_mod_to_equations; lia).
  assert (Hb1 : (v / 2 ^ 8) mod 2 ^ 8 = u8 c)
    by (subst v; change (2 ^ 8) with 256; Z.div_mod_to_equations; lia).
  assert (Hb2 : (v / 2 ^ 16) mod 2 ^ 8 = u8 b)
    by (subst v; change (2 ^ 8) with 256; change (2 ^ 16) with 65536;
        Z.div_mod_to_equations; lia).
  assert (Hb3 : (v / 2 ^ 24) mod 2 ^ 8 = u8 a)
    by (subst v; change (2 ^ 8) with 256; change (2 ^ 24) with 16777216;
        Z.div_mod_to_equations; lia).
  rewrite Hb0, Hb1, Hb2, Hb3. reflexivity.
Qed.

Lemma firstn_4 (pdata : list byte) :
  (4 <= List.length pdata)%nat ->
  firstn 4 pdata =
    [nth 0 pdata x00; nth 1 pdata x00; nth 2 pdata x00; nth 3 pdata x00].
Proof.
  destruct pdata as [|b0 [|b1 [|b2 [|b3 rest]]]]; simpl; try lia.
  reflexivity.
Qed.

Lemma decode_loop_run (E : env) (pheader : pcap_pkthdr) (pdata : list byte) :
  NULL_HDR_LEN <= caplen pheader <= Z.of_nat (List.length pdata) ->
  decode_loop E pheader pdata =
    if (loop_family E pdata =? AF_INET) || (loop_family E pdata =? AF_INET6 E)
    then
      sm <- decode_ip E (skipn 4 pdata)
              (sub32 (caplen pheader) NULL_HDR_LEN) pktsummary_zero ;;
      acct_for (set_time sm (ts_tv_sec pheader)) ;;;
      ret (set_time sm (ts_tv_sec pheader))
    else
      ([EvVerbose "loop: unknown family (%x)" [loop_family E pdata]],
       Some pktsummary_zero).
Proof.
  unfold NULL_HDR_LEN. intros H. unfold decode_loop, NULL_HDR_LEN.
  change (Z.to_nat 4) with 4%nat. cbv zeta.
  destruct (Z.ltb_spec (caplen pheader) 4); [lia|].
  reads. rewrite skipn_O, firstn_4 by lia.
  assert (Hfam : (if is_OpenBSD E
                  then ntohl E (load32 E [nth 0 pdata x00; nth 1 pdata x00;
                                           nth 2 pdata x00; nth 3 pdata x00])
                  else load32 E [nth 0 pdata x00; nth 1 pdata x00;
                                 nth 2 pdata x00; nth 3 pdata x00])
                 = loop_family E pdata).
  { unfold loop_family, ntohl, load32.
    destruct (is_OpenBSD E), (host_big_endian E); simpl; try reflexivity.
    apply bswap32_be32. }
  rewrite Hfam.
  destruct (loop_family E pdata =? AF_INET); [reflexivity|].
  destruct (loop_family E pdata =? AF_INET6 E); reflexivity.
Qed.

(** A null/loopback frame of at least 4 bytes is dispatched exactly when
    its address family, read in network order on OpenBSD (whatever the
    byte order of the host) and in host order elsewhere, is [AF_INET] or
    [AF_INET6]; any other family is logged with its value and the frame
    dropped. *)
Theorem decode_loop_family (E : env) (pheader : pcap_pkthdr)
    (pdata : list byte) :
  NULL_HDR_LEN <= caplen pheader <= Z.of_nat (List.length pdata) ->
  decode_loop E pheader pdata =
    if (loop_family E pdata =? AF_INET) || (loop_family E pdata =? AF_INET6 E)
    then
      sm <- decode_ip E (skipn 4 pdata)
              (sub32 (caplen pheader) NULL_HDR_LEN) pktsummary_zero ;;
      acct_for (set_time sm (ts_tv_sec pheader)) ;;;
      ret (set_time sm (ts_tv_sec pheader))
    else
      ([EvVerbose "loop: unknown family (%x)" [loop_family E pdata]],
       Some pktsummary_zero).
Proof. exact (@decode_loop_run E pheader pdata). Qed.

Lemma decode_loop_family_witness :
  decode_loop (mk_env true false false false 24 false 254)
      (mk_pkthdr 1000 8) [x00; x00; x00; x02; x45; x00; x00; x00] =
    ([EvDecodeIp 4; EvVerbose "ip: packet too short (%u bytes)" [4];
      EvAcct (set_time pktsummary_zero 1000)],
     Some (set_time pktsummary_zero 1000)) /\
  decode_loop env_linux
      (mk_pkthdr 1000 8) [x00; x00; x00; x02; x45; x00; x00; x00] =
    ([EvVerbose "loop: unknown family (%x)" [0x02000000]],
     Some pktsummary_zero).
Proof.
  split.
  - rewrite (@decode_loop_family (mk_env true false false false 24 false 254)
               (mk_pkthdr 1000 8) [x00; x00; x00; x02; x45; x00; x00; x00]);
      [reflexivity | vm_compute; split; discriminate].
  - rewrite (@decode_loop_family env_linux
               (mk_pkthdr 1000 8) [x00; x00; x00; x02; x45; x00; x00; x00]);
      [reflexivity | vm_compute; split; discriminate].
Defined.

(** ** Frames captured with the minimum snaplen *)

Lemma getsnaplen_eq (E : env) (lh : linkhdr) :
  In lh (linkhdrs E) -> getsnaplen lh = hdrlen lh + 60.
Proof.
  intros Hin. apply registered_hdrlen_small in Hin.
  unfold getsnaplen, to_int, IPV6_HDR_LEN, TCP_HDR_LEN, UDP_HDR_LEN.
  change (Z.max 20 8) with 20. rewrite Z.mod_small by lia. lia.
Qed.

Lemma decode_ip_payload_not_short (E : env) (pdata : list byte) (n : Z)
    (sm : pktsummary) :
  TCP_HDR_LEN <= n <= Z.of_nat (List.length pdata) ->
  no_short (decode_ip_payload E pdata n sm).
Proof.
  unfold TCP_HDR_LEN. intros Hn. unfold decode_ip_payload, no_short.
  destruct (proto sm =? IPPROTO_TCP).
  - destruct (Z.ltb_spec n TCP_HDR_LEN) as [H|H];
      unfold TCP_HDR_LEN in H; [lia|].
    reads. intros e [].
  - destruct (proto sm =? IPPROTO_UDP).
    + destruct (Z.ltb_spec n UDP_HDR_LEN) as [H|H];
        unfold UDP_HDR_LEN in H; [lia|].
      reads. intros e [].
    + destruct (_ || _); simpl; intros e Hin;
        [contradiction | destruct Hin as [<- | []]; reflexivity].
Qed.

Lemma no_short_emit A (e : event) (m : M A) :
  too_short e = false -> no_short m -> no_short (e :: fst m, snd m).
Proof. intros He Hm x [<- | Hin]; [exact He | now apply Hm]. Qed.

Lemma decode_ip_not_short (E : env) (pdata : list byte) (n : Z)
    (sm : pktsummary) :
  IPV6_HDR_LEN + TCP_HDR_LEN <= n <= Z.of_nat (List.length pdata) ->
  n < 2 ^ 32 ->
  no_short (decode_ip E pdata n sm).
Proof.
  unfold IPV6_HDR_LEN, TCP_HDR_LEN. intros Hn Hw.
  assert (Hpay : forall k sm0, (k <= 40)%nat ->
            no_short (decode_ip_payload E (skipn k pdata)
                        (n - Z.of_nat k) sm0)).
  { intros k sm0 Hk. apply decode_ip_payload_not_short.
    unfold TCP_HDR_LEN. rewrite length_skipn. lia. }
  unfold decode_ip. rewrite bind_emit. apply no_short_emit; [reflexivity|].
  reads.
  destruct (ip_v (nth 0 pdata x00) =? 6).
  - rewrite decode_ipv6_ok by (unfold IPV6_HDR_LEN; lia).
    apply (Hpay 40%nat). lia.
  - unfold IP_HDR_LEN. destruct (Z.ltb_spec n 20); [lia|].
    destruct (negb _).
    + intros e [<- | []]. reflexivity.
    + reads. rewrite sub32_exact by lia. apply (Hpay 20%nat). lia.
Qed.

Lemma no_short_dispatch (E : env) (g : pktsummary -> pktsummary)
    (pdata : list byte) (n : Z) (sm : pktsummary) :
  IPV6_HDR_LEN + TCP_HDR_LEN <= n <= Z.of_nat (List.length pdata) ->
  n < 2 ^ 32 ->
  no_short (bind (decode_ip E pdata n sm)
                 (fun sm' => acct_for (g sm') ;;; ret (g sm'))).
Proof.
  intros Hn Hw e. pose proof (@decode_ip_not_short E pdata n sm Hn Hw) as Hip.
  remember (decode_ip E pdata n sm) as m eqn:Hm. clear Hm.
  unfold bind. destruct (snd m); simpl.
  - intros Hin. apply in_app_or in Hin as [Hin | [<- | []]];
      [now apply Hip | reflexivity].
  - apply Hip.
Qed.

Lemma no_short_log A (fmt : string) (args : list Z) (r : option A) :
  too_short (EvVerbose fmt args) = false ->
  no_short ([EvVerbose fmt args], r).
Proof. intros H e [<- | []]. exact H. Qed.

Lemma no_short_nil A (r : option A) : no_short (([] : list event), r).
Proof. intros e []. Qed.

(** Closes the goals that a decoder leaves at a capture of at least the
    minimum snaplen. *)
Ltac no_short_leaf :=
  first
    [ apply no_short_nil
    | apply no_short_log; reflexivity
    | apply no_short_dispatch;
      [ unfold IPV6_HDR_LEN, TCP_HDR_LEN;
        rewrite ?sub32_exact by lia; rewrite ?length_skipn; lia
      | rewrite ?sub32_exact by lia; lia ] ].

Lemma no_short_ether (E : env) (pheader : pcap_pkthdr) (pdata : list byte) :
  opt_want_pppoe E = false ->
  ETHER_HDR_LEN + 60 <= caplen pheader < 2 ^ 32 ->
  caplen pheader <= Z.of_nat (List.length pdata) ->
  no_short (decode_ether E pheader pdata).
Proof.
  unfold ETHER_HDR_LEN. intros Hopt Hcap Hbuf.
  rewrite decode_ether_run by (unfold ETHER_HDR_LEN; lia).
  cbv zeta. rewrite Hopt. unfold ETHER_HDR_LEN. simpl negb.
  repeat match goal with
         | |- no_short (if ?c then _ else _) => destruct c
         end; no_short_leaf.
Qed.

Lemma no_short_loop (E : env) (pheader : pcap_pkthdr) (pdata : list byte) :
  NULL_HDR_LEN + 60 <= caplen pheader < 2 ^ 32 ->
  caplen pheader <= Z.of_nat (List.length pdata) ->
  no_short (decode_loop E pheader pdata).
Proof.
  unfold NULL_HDR_LEN. intros Hcap Hbuf.
  rewrite decode_loop_run by (unfold NULL_HDR_LEN; lia).
  unfold NULL_HDR_LEN.
  destruct (_ || _); no_short_leaf.
Qed.

Lemma no_short_ppp (E : env) (pheader : pcap_pkthdr) (pdata : list byte) :
  PPP_HDR_LEN + 60 <= caplen pheader < 2 ^ 32 ->
  caplen pheader <= Z.of_nat (List.length pdata) ->
  no_short (decode_ppp E pheader pdata).
Proof.
  unfold PPP_HDR_LEN. intros Hcap Hbuf.
  rewrite decode_ppp_from_8 by (unfold PPPOE_HDR_LEN; lia).
  destruct (_ && _); no_short_leaf.
Qed.

Lemma no_short_pppoe (E : env) (pheader : pcap_pkthdr) (pdata : list byte) :
  PPPOE_HDR_LEN + 60 <= caplen pheader < 2 ^ 32 ->
  caplen pheader <= Z.of_nat (List.length pdata) ->
  no_short (decode_pppoe E pheader pdata).
Proof.
  unfold PPPOE_HDR_LEN. intros Hcap Hbuf. unfold decode_pppoe. cbv zeta.
  rewrite decode_pppoe_real_run by (unfold PPPOE_HDR_LEN; lia).
  cbv zeta. unfold PPPOE_HDR_LEN.
  repeat match goal with
         | |- no_short (if ?c then _ else _) => destruct c
         end; no_short_leaf.
Qed.

Lemma no_short_linux_sll (E : env) (pheader : pcap_pkthdr)
    (pdata : list byte) :
  SLL_HDR_LEN + 60 <= caplen pheader < 2 ^ 32 ->
  caplen pheader <= Z.of_nat (List.length pdata) ->
  no_short (decode_linux_sll E pheader pdata).
Proof.
  unfold SLL_HDR_LEN. intros Hcap Hbuf.
  rewrite decode_linux_sll_run by (unfold SLL_HDR_LEN; lia).
  cbv zeta. unfold SLL_HDR_LEN.
  repeat match goal with
         | |- no_short (if ?c then _ else _) => destruct c
         end; no_short_leaf.
Qed.

Lemma no_short_raw (E : env) (pheader : pcap_pkthdr) (pdata : list byte) :
  RAW_HDR_LEN + 60 <= caplen pheader < 2 ^ 32 ->
  caplen pheader <= Z.of_nat (List.length pdata) ->
  no_short (decode_raw E pheader pdata).
Proof.
  unfold RAW_HDR_LEN. intros Hcap Hbuf. unfold decode_raw. cbv zeta.
  no_short_leaf.
Qed.

(** The snaplen of [getsnaplen] is enough: a frame captured with at least
    that many bytes is decoded without any read outside the buffer and
    without any "packet too short" diagnostic, so whatever is dispatched
    is parsed through its TCP or UDP header.  Ethernet in PPPoE mode is
    excepted, where the PPPoE header takes 8 of those bytes. *)
Theorem snaplen_suffices (E : env) (lh : linkhdr) (h : pcap_handler)
    (pheader : pcap_pkthdr) (pdata : list byte) :
  registered E lh -> handler lh = Some h ->
  (linktype lh = DLT_EN10MB -> opt_want_pppoe E = false) ->
  getsnaplen lh <= caplen pheader < 2 ^ 32 ->
  caplen pheader <= Z.of_nat (List.length pdata) ->
  snd (h pheader pdata) <> None /\
  forall e, In e (fst (h pheader pdata)) -> too_short e = false.
Proof.
  intros Hr Hh Hmode Hsnap Hbuf.
  rewrite (@getsnaplen_eq E lh (proj1 Hr)) in Hsnap.
  pose proof (@registered_hdrlen_small E lh (proj1 Hr)) as Hsmall.
  split.
  - apply (completes_handlers pheader pdata Hr Hh); [lia | exact Hbuf |].
    intros n Hin.
    destruct (calls_handlers pheader pdata Hr Hh _ Hin) as (_ & Hlen);
      [lia|].
    destruct Hlen as [-> | (Hl & Hopt & _)]; [lia|].
    rewrite (Hmode Hl) in Hopt. discriminate.
  - destruct Hr as [Hin _].
    table_cases E Hin; simpl in Hh, Hsnap, Hmode; try discriminate;
      injection Hh as <-;
      first [ apply no_short_ether; [now apply Hmode | assumption | assumption]
            | apply no_short_loop; assumption
            | apply no_short_ppp; assumption
            | apply no_short_pppoe; assumption
            | apply no_short_linux_sll; assumption
            | apply no_short_raw; assumption ].
Qed.

Lemma snaplen_suffices_witness :
  snd (decode_ether env_linux (mk_pkthdr 1000 74) eth_ipv6_tcp_74) <> None /\
  forall e,
    In e (fst (decode_ether env_linux (mk_pkthdr 1000 74) eth_ipv6_tcp_74)) ->
    too_short e = false.
Proof.
  apply (@snaplen_suffices env_linux
           (mk_linkhdr DLT_EN10MB ETHER_HDR_LEN
              (Some (decode_ether env_linux)))
           (decode_ether env_linux) (mk_pkthdr 1000 74) eth_ipv6_tcp_74).
  - ether_row.
  - reflexivity.
  - reflexivity.
  - vm_compute. split; [discriminate | reflexivity].
  - vm_compute. discriminate.
Defined.

(** The exception is real: in PPPoE mode an Ethernet frame captured with
    exactly the snaplen of the Ethernet row, carrying a PPPoE session
    frame with IPv6 and TCP, has only 12 bytes left for the TCP header; it
    is logged as too short and handed to the sink with the non-accounting
    protocol number and without ports. *)
Theorem ether_pppoe_snaplen_cuts_tcp6 (E : env) (pheader : pcap_pkthdr)
    (pdata : list byte) :
  opt_want_pppoe E = true ->
  caplen pheader =
    getsnaplen (mk_linkhdr DLT_EN10MB ETHER_HDR_LEN (Some (decode_ether E))) ->
  caplen pheader <= Z.of_nat (List.length pdata) ->
  ether_type pdata = ETHERTYPE_PPPOE ->
  u8 (nth 15 pdata x00) = 0x00 ->
  u8 (nth 20 pdata x00) = 0x00 -> u8 (nth 21 pdata x00) = 0x21 ->
  ip_v (nth 22 pdata x00) = 6 ->
  u8 (nth 28 pdata x00) = IPPROTO_TCP ->
  exists sm,
    decode_ether E pheader pdata =
      ([EvDecodeIp 52; EvVerbose "tcp: packet too short (%u bytes)" [12];
        EvAcct sm], Some sm) /\
    proto sm = IPPROTO_INVALID E /\ src_port sm = 0 /\ dst_port sm = 0 /\
    tcp_flags sm = 0.
Proof.
  intros Hopt Hcap Hbuf Htype Hcode H6 H7 Hv Hp.
  change (getsnaplen _) with 74 in Hcap.
  rewrite decode_ether_run by (unfold ETHER_HDR_LEN; lia).
  cbv zeta. rewrite Htype, Hopt. simpl.
  unfold ETHER_HDR_LEN. rewrite sub32_exact by lia. rewrite Hcap.
  change (74 - 14) with 60.
  rewrite decode_pppoe_real_run
    by (unfold PPPOE_HDR_LEN; rewrite length_skipn; lia).
  cbv zeta. rewrite !nth_skipn. simpl Nat.add.
  rewrite Hcode, H6, H7. simpl.
  unfold PPPOE_HDR_LEN. rewrite sub32_exact by lia. change (60 - 8) with 52.
  rewrite decode_ip_v6_ok;
    [ | rewrite !nth_skipn; exact Hv
      | unfold IPV6_HDR_LEN; rewrite !length_skipn; lia
      | lia ].
  rewrite decode_ip_payload_tcp_cut;
    [ | change (u8 (nth 6 (skipn 8 (skipn 14 pdata)) x00) = IPPROTO_TCP);
        rewrite !nth_skipn; exact Hp
      | unfold TCP_HDR_LEN; lia ].
  unfold bind, acct_for, emit, ret. simpl.
  eexists. split; [reflexivity|]. repeat split.
Qed.

Lemma ether_pppoe_snaplen_cuts_tcp6_witness :
  exists sm,
    decode_ether (mk_env false false true false 10 true 254)
        (mk_pkthdr 1000 74) eth_pppoe_ipv6_tcp_74 =
      ([EvDecodeIp 52; EvVerbose "tcp: packet too short (%u bytes)" [12];
        EvAcct sm], Some sm) /\
    proto sm = 254 /\ src_port sm = 0 /\ dst_port sm = 0 /\ tcp_flags sm = 0.
Proof.
  apply (@ether_pppoe_snaplen_cuts_tcp6
           (mk_env false false true false 10 true 254)
           (mk_pkthdr 1000 74) eth_pppoe_ipv6_tcp_74);
    reflexivity.
Defined.

(** ** What [decode_ip] does not look at, and does not touch *)

(** The header-length nibble of an IPv4 header is never consulted: two
    buffers that differ only in the low nibble of their first byte are
    decoded alike, so the transport header is always taken at offset 20
    and IP options are not skipped. *)
Theorem decode_ip_ignores_ihl (E : env) (b b' : byte) (rest : list byte)
    (n : Z) (sm : pktsummary) :
  ip_v b = ip_v b' ->
  decode_ip E (b :: rest) n sm = decode_ip E (b' :: rest) n sm.
Proof.
  intros Hv. unfold decode_ip. f_equal.
  unfold byte_at at 1 3. simpl nth_error.
  change ([], Some b) with (ret b). change ([], Some b') with (ret b').
  rewrite !bind_ret, Hv. reflexivity.
Qed.

Lemma decode_ip_ignores_ihl_witness :
  decode_ip env_linux (x46 :: tl (skipn 14 eth_ipv4_tcp)) 40 pktsummary_zero =
  decode_ip env_linux (x45 :: tl (skipn 14 eth_ipv4_tcp)) 40 pktsummary_zero.
Proof.
  apply (@decode_ip_ignores_ihl env_linux x46 x45
           (tl (skipn 14 eth_ipv4_tcp)) 40 pktsummary_zero).
  reflexivity.
Defined.

(** The network and transport layers never call the sink themselves, and
    whatever they return has the capture time and the MAC addresses that
    the link layer had stored. *)
Theorem decode_ip_keeps_link_fields (E : env) (pdata : list byte) (n : Z)
    (sm : pktsummary) :
  count_acct (fst (decode_ip E pdata n sm)) = 0%nat /\
  forall sm', snd (decode_ip E pdata n sm) = Some sm' ->
    time sm' = time sm /\ src_mac sm' = src_mac sm /\
    dst_mac sm' = dst_mac sm.
Proof.
  destruct (decode_ip_shape E pdata n sm) as (body & -> & Hsil & Hkeep).
  split.
  - simpl. exact (proj1 (quiet_counts _ Hsil)).
  - intros sm' Hres. exact (Hkeep sm' Hres).
Qed.

(** ** PPP frames of at least 8 bytes *)

Lemma ntohs_sum (hi lo : byte) : ntohs hi lo = u8 hi * 256 + u8 lo.
Proof.
  unfold ntohs. pose proof (u8_range lo).
  rewrite lor_shiftl_add by lia. reflexivity.
Qed.

(** From 8 captured bytes on, [decode_ppp] goes by the protocol field at
    offsets 2-3: 0x0021 is handed to the IP demuxer behind the 4-byte PPP
    header and then to the sink with the capture time; anything else is
    logged as a non-IP PPP packet and dropped. *)
Theorem decode_ppp_protocol (E : env) (pheader : pcap_pkthdr)
    (pdata : list byte) :
  PPPOE_HDR_LEN <= caplen pheader <= Z.of_nat (List.length pdata) ->
  (ntohs (nth 2 pdata x00) (nth 3 pdata x00) = 0x0021 ->
   decode_ppp E pheader pdata =
     (sm <- decode_ip E (skipn 4 pdata) (sub32 (caplen pheader) PPP_HDR_LEN)
              pktsummary_zero ;;
      acct_for (set_time sm (ts_tv_sec pheader)) ;;;
      ret (set_time sm (ts_tv_sec pheader)))) /\
  (ntohs (nth 2 pdata x00) (nth 3 pdata x00) <> 0x0021 ->
   decode_ppp E pheader pdata =
     ([EvVerbose "non-IP PPP packet; ignoring." []], Some pktsummary_zero)).
Proof.
  intros H. rewrite decode_ppp_from_8 by exact H.
  rewrite ntohs_sum.
  pose proof (u8_range (nth 2 pdata x00)).
  pose proof (u8_range (nth 3 pdata x00)).
  destruct (Z.eqb_spec (u8 (nth 2 pdata x00)) 0) as [H2|H2],
    (Z.eqb_spec (u8 (nth 3 pdata x00)) 33) as [H3|H3]; simpl;
    split; intros Hp; try reflexivity; exfalso; lia.
Qed.

Lemma decode_ppp_protocol_witness :
  decode_ppp env_linux (mk_pkthdr 1000 8)
      [xff; x03; xc0; x21; x01; x01; x00; x04] =
    ([EvVerbose "non-IP PPP packet; ignoring." []], Some pktsummary_zero).
Proof.
  apply (@decode_ppp_protocol env_linux (mk_pkthdr 1000 8)
           [xff; x03; xc0; x21; x01; x01; x00; x04]).
  - vm_compute. split; discriminate.
  - vm_compute. discriminate.
Defined.

(** * Dispatch and the accounting sink *)















Lemma registered_decoder (E : env) (lh : linkhdr) (h : pcap_handler) :
  registered E lh -> handler lh = Some h -> exists l, h = decoder_of E l.
Proof.
  intros [Hin _] Hh.
  table_cases E Hin; simpl in Hh; try discriminate; injection Hh as <-;
    first [ now exists L_ether | now exists L_loop | now exists L_ppp
          | now exists L_pppoe | now exists L_linux_sll | now exists L_raw ].
Qed.




